(** * Study Buddy chat handler

    A shallow embedding of [cdk/lambda/agent_handler.py]: the request
    router [handler], the materials endpoint [get_materials_handler], the
    validator [validate_material_id] and the retrieval tool
    [retrieve_study_materials], together with the module-level list
    [_retrieved_sources] that the tool and the router share.

    Python values that are dynamically typed in the source (the event, the
    decoded request body, the response dictionaries) are values of [pyval];
    a Python [dict] with string keys is a [gmap string pyval].  Strings are
    Rocq strings, that is sequences of 8-bit characters; [str.lower] is
    modelled on the ASCII letters.  A relevance score, a Python [float] in
    the source, is an exact rational.

    Everything outside the file is collected in the record [env]: the
    environment variables, the Bedrock retrieve call, [json.loads], the
    bundled [materials.json] and the Strands agent. *)

From Stdlib Require Import Ascii QArith Qround Qabs.
From stdpp Require Import base strings list gmap pretty.

Close Scope Q_scope.

(* ================================================================== *)
(** * Python values and exceptions *)
(* ================================================================== *)

#[warnings="-register-all"]
Inductive pyval : Type :=
| VNone
| VBool (b : bool)
| VInt (z : Z)
| VFloat (q : Q)
| VStr (s : string)
| VList (l : list pyval)
| VDict (d : gmap string pyval).

(** The exception classes the source distinguishes ([FileNotFoundError]
    has an [except] clause of its own) or raises itself through a builtin.
    [OtherError] is any other subclass of [Exception]. *)
Inductive exn_class : Type :=
| FileNotFoundError
| AttributeError
| TypeError
| IndexError
| OtherError.

(** An exception is its class and the text [str(e)]. *)
Record exn : Type := Exn { exn_cls : exn_class; exn_str : string }.

Inductive result (A : Type) : Type :=
| Ok (a : A)
| Raise (e : exn).
Arguments Ok {A} a.
Arguments Raise {A} e.

#[global] Instance result_ret : MRet result := fun A a => Ok a.
#[global] Instance result_bind : MBind result := fun A B f m =>
  match m with
  | Ok a => f a
  | Raise e => Raise e
  end.

(** [type(v).__name__] *)
Definition type_name (v : pyval) : string :=
  match v with
  | VNone => "NoneType"
  | VBool _ => "bool"
  | VInt _ => "int"
  | VFloat _ => "float"
  | VStr _ => "str"
  | VList _ => "list"
  | VDict _ => "dict"
  end.

(** [bool(v)], the test behind [not v] and [a or b]. *)
Definition truthy (v : pyval) : bool :=
  match v with
  | VNone => false
  | VBool b => b
  | VInt z => negb (Z.eqb z 0)
  | VFloat q => negb (Qeq_bool q 0)
  | VStr s => negb (String.eqb s "")
  | VList l => match l with [] => false | _ => true end
  | VDict d => negb (bool_decide (d = ∅))
  end.

(** [a or b] ([b] never raises where the source uses it). *)
Definition py_or (a b : pyval) : pyval := if truthy a then a else b.

(** [d.get(k, dflt)] on a dictionary. *)
Definition dict_get (d : gmap string pyval) (k : string) (dflt : pyval) : pyval :=
  default dflt (d !! k).

(** [v.get(k, dflt)] on any value: only a [dict] has the method. *)
Definition py_get (v : pyval) (k : string) (dflt : pyval) : result pyval :=
  match v with
  | VDict d => Ok (dict_get d k dflt)
  | _ => Raise (Exn AttributeError
                  ("'" +:+ type_name v +:+ "' object has no attribute 'get'"))
  end.

(** [v == s] for a string literal [s]. *)
Definition py_eq_str (v : pyval) (s : string) : bool :=
  match v with
  | VStr t => bool_decide (t = s)
  | _ => false
  end.

(* ================================================================== *)
(** * String operations *)
(* ================================================================== *)

Definition nl : string := String "010"%char "".

Fixpoint starts_with (p s : string) : bool :=
  match p, s with
  | EmptyString, _ => true
  | String a p', String b s' => bool_decide (a = b) && starts_with p' s'
  | String _ _, EmptyString => false
  end.

(** [needle in hay] on strings. *)
Fixpoint str_in (needle hay : string) : bool :=
  starts_with needle hay ||
  match hay with
  | EmptyString => false
  | String _ hay' => str_in needle hay'
  end.

(** [n] occurs in [h] as a contiguous block: what [str_in] decides. *)
Definition is_substring (n h : string) : Prop :=
  ∃ pre post, h = pre +:+ n +:+ post.

Definition lower_ascii (c : ascii) : ascii :=
  let n := N_of_ascii c in
  if ((65 <=? n) && (n <=? 90))%N then ascii_of_N (n + 32) else c.

(** [s.lower()] *)
Fixpoint lower (s : string) : string :=
  match s with
  | EmptyString => EmptyString
  | String c s' => String (lower_ascii c) (lower s')
  end.

(** [s.split(sep)] for a one-character separator. *)
Fixpoint str_split (sep : ascii) (s : string) : list string :=
  match s with
  | EmptyString => [EmptyString]
  | String c s' =>
      if bool_decide (c = sep) then EmptyString :: str_split sep s'
      else match str_split sep s' with
           | h :: t => String c h :: t
           | [] => [String c EmptyString]
           end
  end.

(** [l[-1]] *)
Definition index_last {A : Type} (l : list A) : result A :=
  match last l with
  | Some x => Ok x
  | None => Raise (Exn IndexError "list index out of range")
  end.

(** [v in ...] for a string literal on the left: substring test on a
    string, membership in a list, key test on a dictionary, [TypeError]
    on anything else. *)
Definition py_in (needle : string) (v : pyval) : result bool :=
  match v with
  | VStr s => Ok (str_in needle s)
  | VList l => Ok (existsb (fun x => py_eq_str x needle) l)
  | VDict d => Ok (bool_decide (is_Some (d !! needle)))
  | _ => Raise (Exn TypeError
                  ("argument of type '" +:+ type_name v +:+ "' is not iterable"))
  end.

(** [sep.join(l)] *)
Fixpoint join (sep : string) (l : list string) : string :=
  match l with
  | [] => ""
  | [x] => x
  | x :: l' => x +:+ sep +:+ join sep l'
  end.

(** Rounding to the nearest integer, ties to the even one. *)
Definition round_half_even (q : Q) : Z :=
  let f := Qfloor q in
  match Qcompare (q - inject_Z f)%Q (1 # 2)%Q with
  | Lt => f
  | Gt => (f + 1)%Z
  | Eq => if Z.even f then f else (f + 1)%Z
  end.

(** [f"{score:.2f}"] *)
Definition format_2f (q : Q) : string :=
  let n := round_half_even (Qabs q * 100)%Q in
  (if Qlt_le_dec q 0 then "-" else "")
    +:+ pretty (n / 100)%Z +:+ "."
    +:+ pretty (n `mod` 100 / 10)%Z +:+ pretty (n `mod` 10)%Z.

(* ================================================================== *)
(** * Data model *)
(* ================================================================== *)

(** One element of ["retrievalResults"] in the answer of the Bedrock
    retrieve call, as far as the tool reads it.  Every level can be
    missing; the tool reads each with [.get] and a default. *)
Record rr_content : Type := RRContent { rr_text : option string }.
Record rr_s3_location : Type := RRS3Location { rr_uri : option string }.
Record rr_location : Type := RRLocation { rr_s3Location : option rr_s3_location }.
Record retrieval_result : Type := RetrievalResult {
  rr_content_ : option rr_content;
  rr_score : option Q;
  rr_location_ : option rr_location
}.

Record retrieve_response : Type := RetrieveResponse {
  retrievalResults : option (list retrieval_result)
}.

(** An entry of [_retrieved_sources]: the dictionary with the keys
    ["content"], ["score"], ["source"] and ["documentName"]. *)
Record passage : Type := Passage {
  p_content : string;
  p_score : Q;
  p_source : string;
  p_documentName : string
}.

(** The entry as the dictionary that [json.dumps] receives. *)
Definition passage_dict (p : passage) : pyval :=
  VDict (<["content" := VStr (p_content p)]>
        (<["score" := VFloat (p_score p)]>
        (<["source" := VStr (p_source p)]>
        (<["documentName" := VStr (p_documentName p)]> ∅)))).

(** [class StudyBuddyResponse(BaseModel)].  The identifier is kept as any
    optional string, so that [validate_material_id] has something to do. *)
Record StudyBuddyResponse : Type := MkStudyBuddyResponse {
  response : string;
  relevant_material_id : option string
}.

(** A run of the agent on one message, seen from the handler: the agent
    answers, raises, or calls the retrieval tool with a query and goes on
    with the text the tool returned.  A run whose [structured_output] the
    handler cannot read ends in an exception inside the [try] block and
    is an [AgentRaise] here. *)
Inductive agent_run : Type :=
| AgentReturn (structured_output : StudyBuddyResponse)
| AgentRaise (e : exn)
| AgentCallTool (query : string) (k : string → agent_run).

(** An [Agent] instance is what it does with a message. *)
Definition agent : Type := pyval → agent_run.

(** The arguments of [S3SessionManager(...)]. *)
Record session_manager : Type := S3SessionManager {
  sm_session_id : pyval;
  sm_bucket : string;
  sm_prefix : string;
  sm_region_name : string
}.

(** What the file imports or reads from its surroundings. *)
Record env : Type := Env {
  KNOWLEDGE_BASE_ID : string;
  SESSION_BUCKET : string;
  AWS_REGION : string;
  (** [bedrock_agent_runtime.retrieve] with [numberOfResults = 5]; the
      first argument is the number of calls made before this one. *)
  bedrock_retrieve : nat → string → string → result retrieve_response;
  (** [json.loads] *)
  json_loads : string → result pyval;
  (** [open(materials_path, "r")] and reading the file *)
  read_materials : result string;
  (** [Agent(model=..., system_prompt=..., tools=[retrieve_study_materials],
      session_manager=..., conversation_manager=...)], the model and the
      conversation manager being fixed *)
  Agent : option session_manager → result agent
}.

(** The calls the handler makes to its collaborators, in order. *)
Inductive action : Type :=
| ActReset
| ActCreateAgent (session_id : pyval)
| ActInvokeAgent (message : pyval)
| ActToolCall (query : string).

(** The state of the process: the module-level list and, as a record of
    what happened, the number of retrieve calls and the actions so far. *)
Record state : Type := State {
  _retrieved_sources : list passage;
  kb_calls : nat;
  trace : list action
}.

Definition set_sources (l : list passage) (st : state) : state :=
  {| _retrieved_sources := l; kb_calls := kb_calls st; trace := trace st |}.

Definition log (a : action) (st : state) : state :=
  {| _retrieved_sources := _retrieved_sources st;
     kb_calls := kb_calls st;
     trace := trace st ++ [a] |}.

Definition count_call (st : state) : state :=
  {| _retrieved_sources := _retrieved_sources st;
     kb_calls := S (kb_calls st);
     trace := trace st |}.

(** The API Gateway response. [body] is either a literal string or the
    text [json.dumps] makes of a value. *)
Inductive body_text : Type :=
| Literal (s : string)
| json_dumps (v : pyval).

Record http_response : Type := Response {
  statusCode : Z;
  headers : gmap string string;
  body : body_text
}.

(* ================================================================== *)
(** * The retrieval tool *)
(* ================================================================== *)

(** [source_uri.split("/")[-1] if "/" in source_uri else source_uri] *)
Definition document_name_of (source_uri : string) : result string :=
  if str_in "/" source_uri then index_last (str_split "/"%char source_uri)
  else Ok source_uri.

(** The body of [for idx, result in enumerate(results, 1)], with the two
    lists it appends to. *)
Fixpoint retrieve_loop (idx : nat) (results : list retrieval_result)
    (sources : list passage) (formatted_results : list string)
    : result (list passage * list string) :=
  match results with
  | [] => Ok (sources, formatted_results)
  | r :: rest =>
      let content := default "" (rr_text (default (RRContent None) (rr_content_ r))) in
      let score := default 0%Q (rr_score r) in
      let location := default (RRLocation None) (rr_location_ r) in
      let source_uri :=
        default "Unknown source"
          (rr_uri (default (RRS3Location None) (rr_s3Location location))) in
      document_name ← document_name_of source_uri;
      retrieve_loop (S idx) rest
        (sources ++ [Passage content score source_uri document_name])
        (formatted_results ++
           ["[Source " +:+ pretty idx +:+ "] (Relevance: " +:+ format_2f score
              +:+ ")" +:+ nl +:+ content +:+ nl
              +:+ "From: " +:+ document_name +:+ nl])
  end.

Definition kb_not_configured : string :=
  "Error: Knowledge Base not configured. Please set KNOWLEDGE_BASE_ID environment variable.".

Definition no_information : string :=
  "No relevant information found in the study materials for this query.".

(** The [try] block of the tool, after the retrieve call returned.  An
    exception leaves through [Raise]; the list it had built is dropped by
    the [except] clause. *)
Definition retrieve_try (resp : retrieve_response) : result (list passage * string) :=
  let results := default [] (retrievalResults resp) in
  match results with
  | [] => Ok ([], no_information)
  | _ =>
      '(sources, formatted_results) ← retrieve_loop 1 results [] [];
      Ok (sources, join (nl +:+ "---" +:+ nl) formatted_results)
  end.

Definition retrieve_study_materials (E : env) (query : string) (st : state)
    : string * state :=
  if bool_decide (KNOWLEDGE_BASE_ID E = "") then (kb_not_configured, st)
  else
    let st1 := count_call st in
    match bedrock_retrieve E (kb_calls st) (KNOWLEDGE_BASE_ID E) query
            ≫= retrieve_try with
    | Ok (sources, out) => (out, set_sources sources st1)
    | Raise e =>
        ("Error retrieving from knowledge base: " +:+ exn_str e,
         set_sources [] st1)
    end.

(** [result["content"]["text"]] and [result["location"]["s3Location"]["uri"]],
    where present. *)
Definition result_text (r : retrieval_result) : option string :=
  match rr_content_ r with
  | Some c => rr_text c
  | None => None
  end.

Definition result_uri (r : retrieval_result) : option string :=
  match rr_location_ r with
  | Some l => match rr_s3Location l with
              | Some s => rr_uri s
              | None => None
              end
  | None => None
  end.

(** What the tool is to store for a search result: the text, the score or
    0, the URI or the placeholder, and as document name the part of the
    source after its last [/], or all of it when it has none. *)
Definition is_passage_of (r : retrieval_result) (p : passage) : Prop :=
  p_content p = default "" (result_text r)
  ∧ p_score p = default 0%Q (rr_score r)
  ∧ p_source p = default "Unknown source" (result_uri r)
  ∧ (¬ is_substring "/" (p_source p) → p_documentName p = p_source p)
  ∧ (is_substring "/" (p_source p) →
       ¬ is_substring "/" (p_documentName p)
       ∧ ∃ pre, p_source p = pre +:+ "/" +:+ p_documentName p).

(* ================================================================== *)
(** * The agent *)
(* ================================================================== *)

Definition create_study_buddy_agent (E : env) (session_id : pyval) : result agent :=
  let session_manager :=
    if negb (String.eqb (SESSION_BUCKET E) "")
    then Some (S3SessionManager session_id (SESSION_BUCKET E)
                 "study-buddy-sessions/" (AWS_REGION E))
    else None in
  Agent E session_manager.

(** Running the agent: every tool call goes through
    [retrieve_study_materials] on the current state. *)
Fixpoint run_agent (E : env) (a : agent_run) (st : state)
    : result StudyBuddyResponse * state :=
  match a with
  | AgentReturn r => (Ok r, st)
  | AgentRaise e => (Raise e, st)
  | AgentCallTool query k =>
      let r := retrieve_study_materials E query (log (ActToolCall query) st) in
      run_agent E (k (fst r)) (snd r)
  end.

(* ================================================================== *)
(** * Response shaping *)
(* ================================================================== *)

Definition valid_ids : gset string :=
  {[ "photosynthesis"; "cell_respiration"; "mitosis" ]}.

Definition validate_material_id (material_id : option string) : option string :=
  match material_id with
  | None => None
  | Some id => if bool_decide (id ∈ valid_ids) then Some id else None
  end.

Definition opt_str (o : option string) : pyval :=
  match o with
  | Some s => VStr s
  | None => VNone
  end.

Definition json_headers : gmap string string :=
  <["Content-Type" := "application/json"]>
  (<["Access-Control-Allow-Origin" := "*"]> ∅).

Definition error_body (msg : string) : body_text :=
  json_dumps (VDict (<["error" := VStr msg]> ∅)).

(** [get_materials_handler]: the [try] block, then the [except] clauses. *)
Definition get_materials_handler (E : env) (event : gmap string pyval) : http_response :=
  match read_materials E ≫= json_loads E with
  | Ok materials => Response 200 json_headers (json_dumps materials)
  | Raise (Exn FileNotFoundError _) =>
      Response 404 json_headers (error_body "Materials file not found")
  | Raise e =>
      Response 500 json_headers (error_body ("Error loading materials: " +:+ exn_str e))
  end.

Definition options_response : http_response :=
  Response 200
    (<["Access-Control-Allow-Origin" := "*"]>
    (<["Access-Control-Allow-Methods" := "GET, POST, OPTIONS"]>
    (<["Access-Control-Allow-Headers" := "Content-Type"]>
    (<["Access-Control-Max-Age" := "86400"]> ∅))))
    (Literal "").

(** [path] and [method] as the first lines of [handler] compute them. *)
Definition request_path (event : gmap string pyval) : pyval :=
  py_or (dict_get event "rawPath" VNone) (dict_get event "path" (VStr "")).

Definition request_method (event : gmap string pyval) : result pyval :=
  http ← py_get (dict_get event "requestContext" (VDict ∅)) "http" (VDict ∅);
  m ← py_get http "method" VNone;
  Ok (py_or m (dict_get event "httpMethod" (VStr ""))).

(** The request mapping [body]. *)
Definition parse_body (E : env) (event : gmap string pyval) : result pyval :=
  match event !! "body" with
  | Some (VStr s) => json_loads E s
  | Some v => Ok v
  | None => Ok (VDict event)
  end.

(** The list comprehension that filters the sources. *)
Definition filter_sources (sources : list passage) : list passage :=
  filter (λ source, str_in "materials.json" (lower (p_documentName source)) = false)
         sources.

Definition response_data (structured_response : StudyBuddyResponse)
    (session_id : pyval) (filtered_sources : list passage) : gmap string pyval :=
  let data : gmap string pyval :=
    <["response" := VStr (response structured_response)]>
    (<["sessionId" := session_id]>
    (<["relevantMaterialId" :=
         opt_str (validate_material_id (relevant_material_id structured_response))]> ∅)) in
  match filtered_sources with
  | [] => data
  | _ => <["sources" := VList (passage_dict <$> filtered_sources)]> data
  end.

(** [message] and [session_id], the first lines of the [try] block. *)
Definition chat_request (E : env) (event : gmap string pyval) : result (pyval * pyval) :=
  body' ← parse_body E event;
  message ← py_get body' "message" (VStr "");
  session_id ← py_get body' "sessionId" (VStr "default-session");
  Ok (message, session_id).

(** The [try] block of the chat flow. *)
Definition chat (E : env) (event : gmap string pyval) (st : state)
    : result http_response * state :=
  match chat_request E event with
  | Raise e => (Raise e, st)
  | Ok (message, session_id) =>
      if negb (truthy message)
      then (Ok (Response 400 json_headers (error_body "Message is required")), st)
      else
        let st1 := log ActReset (set_sources [] st) in
        let st2 := log (ActCreateAgent session_id) st1 in
        match create_study_buddy_agent E session_id with
        | Raise e => (Raise e, st2)
        | Ok agent' =>
            let r := run_agent E (agent' message) (log (ActInvokeAgent message) st2) in
            match fst r with
            | Raise e => (Raise e, snd r)
            | Ok structured_response =>
                let filtered_sources := filter_sources (_retrieved_sources (snd r)) in
                (Ok (Response 200 json_headers
                       (json_dumps (VDict (response_data structured_response
                                             session_id filtered_sources)))),
                 snd r)
            end
        end
  end.

Definition internal_error (e : exn) : http_response :=
  Response 500 json_headers (error_body ("Internal server error: " +:+ exn_str e)).

(** The three behaviours of the router. *)
Inductive route : Type :=
| RouteMaterials
| RouteOptions
| RouteChat.

(** The first lines of [handler]: [path], [method] and the two tests on
    them, in the order of the source. *)
Definition dispatch (event : gmap string pyval) : result route :=
  let path := request_path event in
  method ← request_method event;
  in_path ← py_in "/materials" path;
  Ok (if in_path && py_eq_str method "GET" then RouteMaterials
      else if py_eq_str method "OPTIONS" then RouteOptions
      else RouteChat).

(** [handler(event, context)].  An exception raised before the [try]
    block leaves the function; one raised inside it becomes the status
    500 response. *)
Definition handler (E : env) (event : gmap string pyval) (st : state)
    : result http_response * state :=
  match dispatch event with
  | Raise e => (Raise e, st)
  | Ok RouteMaterials => (Ok (get_materials_handler E event), st)
  | Ok RouteOptions => (Ok options_response, st)
  | Ok RouteChat =>
      match chat E event st with
      | (Ok r, st') => (Ok r, st')
      | (Raise e, st') => (Ok (internal_error e), st')
      end
  end.

(* ================================================================== *)
(** * Sample surroundings and requests *)
(* ================================================================== *)

Definition dquote : string := String (ascii_of_N 34) "".

(** The text [{"message": "What is photosynthesis?"}]. *)
Definition sample_body_text : string :=
  "{" +:+ dquote +:+ "message" +:+ dquote +:+ ": " +:+ dquote
      +:+ "What is photosynthesis?" +:+ dquote +:+ "}".

(** A decoder that knows the two request bodies used below. *)
Definition sample_json_loads (s : string) : result pyval :=
  if bool_decide (s = sample_body_text)
  then Ok (VDict (<["message" := VStr "What is photosynthesis?"]> ∅))
  else if bool_decide (s = "{}") then Ok (VDict ∅)
  else Raise (Exn OtherError "Expecting value: line 1 column 1 (char 0)").

(** Three search results: a complete one, one without score and without
    location, and the catalog file, which the index happens to hold. *)
Definition sample_results : list retrieval_result :=
  [ RetrievalResult (Some (RRContent (Some "Light reactions take place in the thylakoid.")))
      (Some (7 # 8)%Q)
      (Some (RRLocation (Some (RRS3Location (Some "s3://study/biology/photosynthesis.pdf")))));
    RetrievalResult (Some (RRContent (Some "Chlorophyll absorbs red and blue light.")))
      None None;
    RetrievalResult (Some (RRContent (Some "Topics of the course.")))
      (Some (1 # 4)%Q)
      (Some (RRLocation (Some (RRS3Location (Some "s3://study/Materials.JSON"))))) ].

Definition sample_agent : agent := λ message,
  AgentCallTool "photosynthesis"
    (λ _, AgentReturn (MkStudyBuddyResponse "Plants turn light into sugar."
                         (Some "photosynthesis"))).

Definition sample_env : env :=
  {| KNOWLEDGE_BASE_ID := "KB12345";
     SESSION_BUCKET := "";
     AWS_REGION := "us-east-1";
     bedrock_retrieve := λ _ _ _, Ok (RetrieveResponse (Some sample_results));
     json_loads := sample_json_loads;
     read_materials := Ok "{}";
     Agent := λ _, Ok sample_agent |}.

(** The same surroundings with [KNOWLEDGE_BASE_ID] unset. *)
Definition unconfigured_env : env :=
  {| KNOWLEDGE_BASE_ID := "";
     SESSION_BUCKET := "";
     AWS_REGION := "us-east-1";
     bedrock_retrieve := λ _ _ _, Ok (RetrieveResponse (Some sample_results));
     json_loads := sample_json_loads;
     read_materials := Ok "{}";
     Agent := λ _, Ok sample_agent |}.

(** A search service that is down, and a deployment without the catalog. *)
Definition failing_env : env :=
  {| KNOWLEDGE_BASE_ID := "KB12345";
     SESSION_BUCKET := "";
     AWS_REGION := "us-east-1";
     bedrock_retrieve := λ _ _ _, Raise (Exn OtherError "ThrottlingException");
     json_loads := sample_json_loads;
     read_materials := Raise (Exn FileNotFoundError "[Errno 2] No such file or directory");
     Agent := λ _, Ok sample_agent |}.

(** A deployment whose catalog file is not JSON. *)
Definition corrupt_env : env :=
  {| KNOWLEDGE_BASE_ID := "KB12345";
     SESSION_BUCKET := "";
     AWS_REGION := "us-east-1";
     bedrock_retrieve := λ _ _ _, Ok (RetrieveResponse (Some sample_results));
     json_loads := sample_json_loads;
     read_materials := Ok "<html>";
     Agent := λ _, Ok sample_agent |}.

(** An agent that answers without looking anything up. *)
Definition quiet_env : env :=
  {| KNOWLEDGE_BASE_ID := "KB12345";
     SESSION_BUCKET := "study-buddy-sessions";
     AWS_REGION := "us-east-1";
     bedrock_retrieve := λ _ _ _, Ok (RetrieveResponse (Some sample_results));
     json_loads := sample_json_loads;
     read_materials := Ok "{}";
     Agent := λ _, Ok (λ _, AgentReturn (MkStudyBuddyResponse "Hello!" None)) |}.


Definition stale_passage : passage :=
  Passage "Prophase comes first." (1 # 2)%Q "s3://study/biology/mitosis.pdf" "mitosis.pdf".

Definition initial_state : state := State [] 0 [].

(** What an earlier invocation may have left behind. *)
Definition stale_state : state := State [stale_passage] 1 [].

Definition chat_event : gmap string pyval :=
  <["httpMethod" := VStr "POST"]> (<["body" := VStr sample_body_text]> ∅).

Definition empty_chat_event : gmap string pyval :=
  <["httpMethod" := VStr "POST"]> (<["body" := VStr "{}"]> ∅).

(** A direct invocation: the event is the request mapping. *)
Definition direct_event : gmap string pyval :=
  <["message" := VStr "What is mitosis?"]> ∅.

Definition options_event : gmap string pyval :=
  <["httpMethod" := VStr "OPTIONS"]> (<["path" := VStr "/chat"]> ∅).

(** An event whose [requestContext] is [null]. *)
Definition malformed_event : gmap string pyval :=
  <["requestContext" := VNone]> (<["httpMethod" := VStr "POST"]> ∅).

Definition materials_event : gmap string pyval :=
  <["rawPath" := VStr "/materials"]>
  (<["requestContext" :=
       VDict (<["http" := VDict (<["method" := VStr "GET"]> ∅)]> ∅)]> ∅).

(* ================================================================== *)
(** * Vocabulary and samples for the further properties *)
(* ================================================================== *)

(** The section of the tool's text for the passage stored at rank [idx]:
    the f-string of the loop, read from the stored entry. *)
Definition format_section (idx : nat) (p : passage) : string :=
  "[Source " +:+ pretty idx +:+ "] (Relevance: " +:+ format_2f (p_score p)
    +:+ ")" +:+ nl +:+ p_content p +:+ nl
    +:+ "From: " +:+ p_documentName p +:+ nl.

(** A stored entry whose document name has no [/] and ends its source. *)
Definition well_named (p : passage) : Prop :=
  ¬ is_substring "/" (p_documentName p)
  ∧ ∃ pre, p_source p = pre +:+ p_documentName p.

Definition is_tool_call (a : action) : bool :=
  match a with
  | ActToolCall _ => true
  | _ => false
  end.


(** The statuses the file writes. *)
Definition known_status (code : Z) : Prop :=
  code = 200%Z ∨ code = 400%Z ∨ code = 404%Z ∨ code = 500%Z.

(** A REST-style request whose body is [null]. *)
Definition null_body_event : gmap string pyval :=
  <["httpMethod" := VStr "POST"]> (<["path" := VStr "/chat"]> (<["body" := VNone]> ∅)).

(** A request whose body is not JSON. *)
Definition html_body_event : gmap string pyval :=
  <["httpMethod" := VStr "POST"]> (<["body" := VStr "<html>"]> ∅).

(** A request whose body is already a mapping, with the number 0 as
    message. *)
Definition zero_message_event : gmap string pyval :=
  <["httpMethod" := VStr "POST"]>
  (<["body" := VDict (<["message" := VInt 0]> (<["sessionId" := VStr "s1"]> ∅))]> ∅).

(** An event with both generations of the routing fields, which disagree. *)
Definition mixed_event : gmap string pyval :=
  <["rawPath" := VStr "/materials"]>
  (<["path" := VStr "/chat"]>
  (<["httpMethod" := VStr "POST"]>
  (<["requestContext" :=
       VDict (<["http" := VDict (<["method" := VStr "GET"]> ∅)]> ∅)]> ∅))).

(** A preflight request for the materials path. *)
Definition options_materials_event : gmap string pyval :=
  <["httpMethod" := VStr "OPTIONS"]> (<["path" := VStr "/materials"]> ∅).

(** The agent cannot be built. *)
Definition agent_down_env : env :=
  {| KNOWLEDGE_BASE_ID := "KB12345";
     SESSION_BUCKET := "study-buddy-sessions";
     AWS_REGION := "us-east-1";
     bedrock_retrieve := λ _ _ _, Ok (RetrieveResponse (Some sample_results));
     json_loads := sample_json_loads;
     read_materials := Ok "{}";
     Agent := λ _, Raise (Exn OtherError "NoCredentialsError") |}.

(** The model call fails after one look-up. *)
Definition model_down_env : env :=
  {| KNOWLEDGE_BASE_ID := "KB12345";
     SESSION_BUCKET := "";
     AWS_REGION := "us-east-1";
     bedrock_retrieve := λ _ _ _, Ok (RetrieveResponse (Some sample_results));
     json_loads := sample_json_loads;
     read_materials := Ok "{}";
     Agent := λ _, Ok (λ _, AgentCallTool "mitosis"
                              (λ _, AgentRaise (Exn OtherError "ModelTimeoutException"))) |}.

(** An agent that looks two things up; the second search finds nothing. *)
Definition two_lookups_env : env :=
  {| KNOWLEDGE_BASE_ID := "KB12345";
     SESSION_BUCKET := "";
     AWS_REGION := "us-east-1";
     bedrock_retrieve := λ n _ _,
       match n with
       | 0 => Ok (RetrieveResponse (Some sample_results))
       | _ => Ok (RetrieveResponse None)
       end;
     json_loads := sample_json_loads;
     read_materials := Ok "{}";
     Agent := λ _, Ok (λ _, AgentCallTool "mitosis"
                              (λ _, AgentCallTool "meiosis"
                                 (λ _, AgentReturn (MkStudyBuddyResponse "Hm." None)))) |}.

(* ================================================================== *)
(** * Strings: substring test and split *)
(* ================================================================== *)

(** Closed facts about the samples are settled by evaluation. *)
Ltac by_evaluation := vm_compute; first [reflexivity | discriminate].

Example format_2f_samples :
  format_2f <$> [(7 # 8)%Q; (1 # 8)%Q; 0%Q; (12345 # 100)%Q]
  = ["0.88"; "0.12"; "0.00"; "123.45"].
Proof. by_evaluation. Qed.

Example document_name_of_samples :
  document_name_of <$> ["s3://study/biology/mitosis.pdf"; "notes.txt"; "s3://study/"]
  = [Ok "mitosis.pdf"; Ok "notes.txt"; Ok ""].
Proof. by_evaluation. Qed.

Lemma starts_with_spec (p s : string) :
  starts_with p s = true ↔ ∃ post, s = p +:+ post.
Proof.
  revert s. induction p as [|a p IH]; intros s; simpl.
  - split; [intros _; by exists s | done].
  - destruct s as [|b s].
    + split; [done | intros [post H]; discriminate H].
    + rewrite andb_true_iff, bool_decide_eq_true, IH. split.
      * intros [-> [post ->]]. by exists post.
      * intros [post H]. injection H as -> ->. split; [done | by exists post].
Qed.

Lemma str_in_spec (n h : string) : str_in n h = true ↔ is_substring n h.
Proof.
  unfold is_substring. induction h as [|c h IH].
  - simpl. rewrite orb_false_r, starts_with_spec. split.
    + intros [post H]. by exists "", post.
    + intros ([|x pre] & post & H); [by exists post | discriminate H].
  - cbn [str_in]. rewrite orb_true_iff, starts_with_spec, IH. split.
    + intros [[post H] | (pre & post & H)].
      * by exists "", post.
      * exists (String c pre), post. simpl. by rewrite H.
    + intros ([|x pre] & post & H).
      * left. by exists post.
      * right. injection H as -> ->. by exists pre, post.
Qed.

Lemma str_in_false_spec (n h : string) : str_in n h = false ↔ ¬ is_substring n h.
Proof. rewrite <- str_in_spec. by destruct (str_in n h). Qed.

Lemma str_in_slash_cons (c : ascii) (s : string) :
  str_in "/" (String c s) = bool_decide (c = "/"%char) || str_in "/" s.
Proof.
  cbn [str_in starts_with]. rewrite andb_true_r.
  f_equal. apply bool_decide_ext. split; congruence.
Qed.

Lemma str_split_nonempty (sep : ascii) (s : string) : str_split sep s ≠ [].
Proof.
  destruct s as [|c s]; simpl; [done |].
  case_bool_decide; [done |]. by destruct (str_split sep s).
Qed.

(** Without a separator the string is the only piece. *)
Lemma str_split_no_sep (s : string) :
  str_in "/" s = false → str_split "/" s = [s].
Proof.
  induction s as [|c s IH]; [done |].
  rewrite str_in_slash_cons, orb_false_iff, bool_decide_eq_false.
  intros [Hc Hs]. simpl. rewrite bool_decide_false by done. by rewrite IH.
Qed.

(** With a separator there are at least two pieces. *)
Lemma str_split_sep_two (s : string) :
  str_in "/" s = true → ∃ h t, str_split "/" s = h :: t ∧ t ≠ [].
Proof.
  induction s as [|c s IH]; [done |].
  rewrite str_in_slash_cons. simpl. case_bool_decide as Hc; simpl.
  - intros _. exists "", (str_split "/" s). split; [done | apply str_split_nonempty].
  - intros Hs. destruct (IH Hs) as (h & t & -> & Ht). by exists (String c h), t.
Qed.

Lemma last_cons_nonempty {A} (x : A) (l : list A) : l ≠ [] → last (x :: l) = last l.
Proof. by destruct l. Qed.

(** The last piece is what follows the last separator. *)
Lemma str_split_last (s : string) :
  str_in "/" s = true →
  ∃ pre d, s = pre +:+ "/" +:+ d ∧ str_in "/" d = false
           ∧ last (str_split "/" s) = Some d.
Proof.
  induction s as [|c s IH]; [done |].
  rewrite str_in_slash_cons. simpl. case_bool_decide as Hc; simpl.
  - intros _. subst c.
    rewrite last_cons_nonempty by apply str_split_nonempty.
    destruct (str_in "/" s) eqn:Hs.
    + destruct (IH eq_refl) as (pre & d & -> & Hd & Hl).
      by exists (String "/" pre), d.
    + exists "", s. by rewrite str_split_no_sep.
  - intros Hs. destruct (IH Hs) as (pre & d & -> & Hd & Hl).
    destruct (str_split_sep_two _ Hs) as (h & t & Heq & Ht).
    rewrite Heq in Hl |- *. rewrite last_cons_nonempty in Hl |- * by done.
    by exists (String c pre), d.
Qed.

(** [document_name_of] never raises, and gives the final path segment. *)
Lemma document_name_of_spec (uri : string) :
  ∃ d, document_name_of uri = Ok d
       ∧ (¬ is_substring "/" uri → d = uri)
       ∧ (is_substring "/" uri →
            ¬ is_substring "/" d ∧ ∃ pre, uri = pre +:+ "/" +:+ d).
Proof.
  unfold document_name_of. destruct (str_in "/" uri) eqn:Hin.
  - destruct (str_split_last _ Hin) as (pre & d & Huri & Hd & Hl).
    exists d. unfold index_last. rewrite Hl. split; [done |].
    apply str_in_spec in Hin. split; [done |].
    intros _. split; [by apply str_in_false_spec | by exists pre].
  - exists uri. split; [done |]. apply str_in_false_spec in Hin. by split.
Qed.

(* ================================================================== *)
(** * The retrieval tool *)
(* ================================================================== *)

Lemma retrieve_loop_spec (results : list retrieval_result) :
  ∀ idx sources formatted,
    ∃ ps fs, retrieve_loop idx results sources formatted
               = Ok (sources ++ ps, formatted ++ fs)
             ∧ Forall2 is_passage_of results ps
             ∧ length fs = length results.
Proof.
  induction results as [|r rest IH]; intros idx sources formatted.
  - exists [], []. by rewrite !app_nil_r.
  - cbn [retrieve_loop].
    set (uri := default "Unknown source" _).
    destruct (document_name_of_spec uri) as (d & -> & Hno & Hyes).
    cbn [mbind result_bind].
    edestruct IH as (ps & fs & -> & Hps & Hfs).
    eexists (_ :: ps), (_ :: fs). rewrite <- !app_assoc. split; [done |].
    split; [| simpl; by rewrite Hfs].
    constructor; [| done].
    assert (Huri : uri = default "Unknown source" (result_uri r)).
    { subst uri. by destruct r as [c s [[[[u]|]]|]]. }
    unfold is_passage_of. cbn [p_content p_score p_source p_documentName].
    rewrite <- Huri. split_and!; [| done | done | done | by intros; apply Hyes].
    by destruct r as [[[[t|]]|] s l].
Qed.

(** C9. A search that succeeds with k >= 1 results leaves in
    [_retrieved_sources] exactly k passages, the i-th built from the i-th
    result: whatever the list held before is gone, the score is the
    result's or 0, and the document name is the part of the source URI
    after its last [/], or the whole URI when it has none. *)
Theorem retrieve_success_stores_passages (E : env) (query : string) (st : state)
    (resp : retrieve_response) (results : list retrieval_result) :
  KNOWLEDGE_BASE_ID E ≠ "" →
  bedrock_retrieve E (kb_calls st) (KNOWLEDGE_BASE_ID E) query = Ok resp →
  retrievalResults resp = Some results →
  results ≠ [] →
  let sources := _retrieved_sources (snd (retrieve_study_materials E query st)) in
  length sources = length results ∧ Forall2 is_passage_of results sources.
Proof.
  intros Hkb Hcall Hres Hne. unfold retrieve_study_materials.
  rewrite bool_decide_false by done. rewrite Hcall.
  cbn [mbind result_bind]. unfold retrieve_try. rewrite Hres. cbn [from_option id].
  destruct results as [|r rest]; [done |].
  destruct (retrieve_loop_spec (r :: rest) 1 [] []) as (ps & fs & -> & Hps & _).
  cbn [fst snd _retrieved_sources set_sources mbind result_bind app].
  split; [| done]. symmetry. by apply (Forall2_length _ _ _ Hps).
Qed.

Lemma retrieve_success_stores_passages_witness :
  let sources :=
    _retrieved_sources (snd (retrieve_study_materials sample_env "light" stale_state)) in
  length sources = 3 ∧ Forall2 is_passage_of sample_results sources.
Proof.
  apply (retrieve_success_stores_passages sample_env "light" stale_state
           (RetrieveResponse (Some sample_results)) sample_results).
  - by_evaluation.
  - reflexivity.
  - reflexivity.
  - discriminate.
Defined.


(* ================================================================== *)
(** * The router *)
(* ================================================================== *)

Lemma tool_trace (E : env) (query : string) (st : state) :
  trace (snd (retrieve_study_materials E query st)) = trace st.
Proof.
  unfold retrieve_study_materials. case_bool_decide; [done |].
  by destruct (_ ≫= retrieve_try) as [[sources out]|e].
Qed.

(** While it runs, the agent adds tool calls to the trace and nothing else. *)
Lemma run_agent_trace (E : env) (a : agent_run) :
  ∀ st, ∃ tl, trace (snd (run_agent E a st)) = trace st ++ tl
              ∧ Forall (λ x, ∃ q, x = ActToolCall q) tl.
Proof.
  induction a as [r | e | query k IH]; intros st.
  - exists []. by rewrite app_nil_r.
  - exists []. by rewrite app_nil_r.
  - cbn [run_agent].
    destruct (IH (fst (retrieve_study_materials E query (log (ActToolCall query) st)))
                 (snd (retrieve_study_materials E query (log (ActToolCall query) st))))
      as (tl & -> & Htl).
    rewrite tool_trace. cbn [log trace]. exists (ActToolCall query :: tl).
    rewrite <- app_assoc. split; [done |]. constructor; [by exists query | done].
Qed.

(** The responses of the materials endpoint. *)
Lemma get_materials_handler_cases (E : env) (event : gmap string pyval) :
  ∃ code b, get_materials_handler E event = Response code json_headers b
            ∧ (code = 200 ∨ code = 404 ∨ code = 500)%Z.
Proof.
  unfold get_materials_handler.
  destruct (_ ≫= json_loads E) as [m|[[] msg]]; eauto 10.
Qed.

(** A response of the chat flow is the validation error, with the state
    untouched, or the success response built from the final state. *)
Lemma chat_ok_inv (E : env) (event : gmap string pyval) (st st' : state)
    (r : http_response) :
  chat E event st = (Ok r, st') →
  (r = Response 400 json_headers (error_body "Message is required") ∧ st' = st)
  ∨ (∃ message session_id sr,
        chat_request E event = Ok (message, session_id)
        ∧ truthy message = true
        ∧ r = Response 200 json_headers
                (json_dumps (VDict (response_data sr session_id
                                      (filter_sources (_retrieved_sources st')))))).
Proof.
  unfold chat. destruct (chat_request E event) as [[message session_id]|e]; [| done].
  destruct (truthy message) eqn:Ht; cbn [negb].
  - destruct (create_study_buddy_agent E session_id) as [a|e]; [| done].
    destruct (run_agent E (a message) _) as [[sr|e] st2] eqn:Hrun; cbn [fst snd]; [| done].
    intros [= <- <-]. right. by exists message, session_id, sr.
  - intros [= <- <-]. by left.
Qed.

(** Which branch produced a response of [handler]. *)
Lemma handler_ok_inv (E : env) (event : gmap string pyval) (st st' : state)
    (r : http_response) :
  handler E event st = (Ok r, st') →
  (dispatch event = Ok RouteMaterials ∧ r = get_materials_handler E event ∧ st' = st)
  ∨ (dispatch event = Ok RouteOptions ∧ r = options_response ∧ st' = st)
  ∨ (dispatch event = Ok RouteChat
     ∧ (chat E event st = (Ok r, st') ∨ ∃ e, r = internal_error e)).
Proof.
  unfold handler. destruct (dispatch event) as [[]|e]; [| | | done].
  - intros [= <- <-]. by left.
  - intros [= <- <-]. right. by left.
  - destruct (chat E event st) as [[r'|e] st2]; intros [= <- <-]; right; right.
    + split; [done | by left].
    + split; [done | right; by exists e].
Qed.

Lemma handler_chat_200_inv (E : env) (event : gmap string pyval) (st : state)
    (r : http_response) :
  dispatch event = Ok RouteChat →
  fst (handler E event st) = Ok r →
  statusCode r = 200%Z →
  ∃ message session_id sr,
    chat_request E event = Ok (message, session_id)
    ∧ truthy message = true
    ∧ r = Response 200 json_headers
            (json_dumps (VDict (response_data sr session_id
               (filter_sources (_retrieved_sources (snd (handler E event st))))))).
Proof.
  intros Hd Hr Hcode. destruct (handler E event st) as [res st'] eqn:Hh.
  cbn [fst snd] in *. subst res.
  destruct (handler_ok_inv _ _ _ _ _ Hh) as [(Hd' & _)|[(Hd' & _)|(_ & [Hc|[e ->]])]];
    [congruence | congruence | | done].
  destruct (chat_ok_inv _ _ _ _ _ Hc) as [[-> _]|H]; [done | exact H].
Qed.

Lemma response_data_material (sr : StudyBuddyResponse) (sid : pyval) (F : list passage) :
  response_data sr sid F !! "relevantMaterialId"
    = Some (opt_str (validate_material_id (relevant_material_id sr))).
Proof. unfold response_data. destruct F; by simplify_map_eq. Qed.

Lemma response_data_sources (sr : StudyBuddyResponse) (sid : pyval) (F : list passage) :
  response_data sr sid F !! "sources"
    = match F with
      | [] => None
      | _ => Some (VList (passage_dict <$> F))
      end.
Proof. unfold response_data. destruct F; by simplify_map_eq. Qed.

Lemma response_data_session (sr : StudyBuddyResponse) (sid : pyval) (F : list passage) :
  response_data sr sid F !! "sessionId" = Some sid.
Proof. unfold response_data. destruct F; by simplify_map_eq. Qed.

Lemma validate_material_id_range (m : option string) :
  validate_material_id m = None
  ∨ validate_material_id m = Some "photosynthesis"
  ∨ validate_material_id m = Some "cell_respiration"
  ∨ validate_material_id m = Some "mitosis".
Proof.
  destruct m as [id|]; [| by left]. unfold validate_material_id, valid_ids.
  case_bool_decide as Hin; [| by left]. right.
  rewrite !elem_of_union, !elem_of_singleton in Hin.
  destruct Hin as [[-> | ->] | ->]; auto.
Qed.

(** C1. [validate_material_id] is the identity on the three identifiers,
    maps [None] to [None] and every other string to [None]; it is a total
    function, so it never raises.  In every successful chat response the
    field [relevantMaterialId] is [null] or one of the three identifiers. *)
Theorem material_id_is_validated :
  validate_material_id None = None
  ∧ (∀ id, id = "photosynthesis" ∨ id = "cell_respiration" ∨ id = "mitosis" →
       validate_material_id (Some id) = Some id)
  ∧ (∀ id, id ≠ "photosynthesis" → id ≠ "cell_respiration" → id ≠ "mitosis" →
       validate_material_id (Some id) = None)
  ∧ (∀ E event st r,
       dispatch event = Ok RouteChat →
       fst (handler E event st) = Ok r →
       statusCode r = 200%Z →
       ∃ d id, body r = json_dumps (VDict d)
               ∧ d !! "relevantMaterialId" = Some id
               ∧ (id = VNone ∨ id = VStr "photosynthesis"
                  ∨ id = VStr "cell_respiration" ∨ id = VStr "mitosis")).
Proof.
  split_and!.
  - done.
  - intros id Hid. unfold validate_material_id, valid_ids.
    rewrite bool_decide_true; [done |].
    rewrite !elem_of_union, !elem_of_singleton. tauto.
  - intros id H1 H2 H3. unfold validate_material_id, valid_ids.
    rewrite bool_decide_false; [done |].
    rewrite !elem_of_union, !elem_of_singleton. tauto.
  - intros E event st r Hd Hr Hcode.
    destruct (handler_chat_200_inv _ _ _ _ Hd Hr Hcode)
      as (message & session_id & sr & _ & _ & ->).
    eexists _, _. split; [done |]. split; [apply response_data_material |].
    destruct (validate_material_id_range (relevant_material_id sr))
      as [-> | [-> | [-> | ->]]]; cbn [opt_str]; auto.
Qed.

Lemma material_id_is_validated_witness :
  validate_material_id (Some "mitosis") = Some "mitosis"
  ∧ validate_material_id (Some "meiosis") = None
  ∧ ∃ d id, body (Response 200 json_headers
                    (json_dumps (VDict (response_data
                       (MkStudyBuddyResponse "Plants turn light into sugar."
                          (Some "photosynthesis"))
                       (VStr "default-session") []))))
              = json_dumps (VDict d)
            ∧ d !! "relevantMaterialId" = Some id
            ∧ (id = VNone ∨ id = VStr "photosynthesis"
               ∨ id = VStr "cell_respiration" ∨ id = VStr "mitosis").
Proof.
  destruct material_id_is_validated as (_ & Hin & Hout & Hresp).
  split; [apply Hin; auto |]. split; [by apply Hout |].
  apply (Hresp unconfigured_env chat_event stale_state).
  - by_evaluation.
  - by_evaluation.
  - reflexivity.
Defined.

(** The substring test is decidable, by [str_in]. *)
#[global] Instance is_substring_dec (n h : string) : Decision (is_substring n h).
Proof.
  destruct (str_in n h) eqn:H.
  - left. by apply str_in_spec.
  - right. by apply str_in_false_spec.
Defined.

Lemma filter_sources_spec (sources : list passage) :
  filter_sources sources
    = filter (λ p, ¬ is_substring "materials.json" (lower (p_documentName p))) sources.
Proof.
  unfold filter_sources. apply list_filter_iff. intros p. apply str_in_false_spec.
Qed.

(** C4. In a successful chat response the key [sources] holds the shared
    list without the entries whose lower-cased [documentName] contains
    [materials.json], in the order of the list; the key is there if and
    only if that filtered list is not empty. *)
Theorem sources_are_filtered (E : env) (event : gmap string pyval) (st : state)
    (r : http_response) :
  dispatch event = Ok RouteChat →
  fst (handler E event st) = Ok r →
  statusCode r = 200%Z →
  let shared := _retrieved_sources (snd (handler E event st)) in
  let kept :=
    filter (λ p, ¬ is_substring "materials.json" (lower (p_documentName p))) shared in
  ∃ d, body r = json_dumps (VDict d)
       ∧ (kept = [] → d !! "sources" = None)
       ∧ (kept ≠ [] → d !! "sources" = Some (VList (passage_dict <$> kept))).
Proof.
  intros Hd Hr Hcode shared kept.
  destruct (handler_chat_200_inv _ _ _ _ Hd Hr Hcode)
    as (message & session_id & sr & _ & _ & ->).
  eexists. split; [done |]. rewrite response_data_sources.
  fold shared. rewrite filter_sources_spec. fold kept.
  destruct kept; split; done.
Qed.

Lemma sources_are_filtered_witness :
  let shared := _retrieved_sources (snd (handler sample_env chat_event stale_state)) in
  let kept :=
    filter (λ p, ¬ is_substring "materials.json" (lower (p_documentName p))) shared in
  ∃ d, body (Response 200 json_headers
               (json_dumps (VDict (response_data
                  (MkStudyBuddyResponse "Plants turn light into sugar."
                     (Some "photosynthesis"))
                  (VStr "default-session")
                  (filter_sources
                     (_retrieved_sources
                        (snd (retrieve_study_materials sample_env "photosynthesis"
                                initial_state))))))))
         = json_dumps (VDict d)
       ∧ d !! "sources" = Some (VList (passage_dict <$> kept)).
Proof.
  intros shared kept.
  destruct (sources_are_filtered sample_env chat_event stale_state
              (Response 200 json_headers
                 (json_dumps (VDict (response_data
                    (MkStudyBuddyResponse "Plants turn light into sugar."
                       (Some "photosynthesis"))
                    (VStr "default-session")
                    (filter_sources
                       (_retrieved_sources
                          (snd (retrieve_study_materials sample_env "photosynthesis"
                                  initial_state)))))))))
    as (d & Hbody & _ & Hkept).
  - by_evaluation.
  - by_evaluation.
  - reflexivity.
  - exists d. split; [exact Hbody |]. apply Hkept.
    unfold kept, shared. rewrite <- filter_sources_spec. by_evaluation.
Defined.

(** On the sample search the catalog entry is dropped and the other two
    stay, in their order. *)
Example filter_sources_sample :
  p_documentName <$>
    filter_sources
      (_retrieved_sources (snd (retrieve_study_materials sample_env "light" initial_state)))
  = ["photosynthesis.pdf"; "Unknown source"].
Proof. by_evaluation. Qed.

Lemma chat_request_ok (E : env) (event : gmap string pyval) (b : gmap string pyval) :
  parse_body E event = Ok (VDict b) →
  chat_request E event
    = Ok (default (VStr "") (b !! "message"),
          default (VStr "default-session") (b !! "sessionId")).
Proof. intros H. unfold chat_request. by rewrite H. Qed.

(** The chat flow once validation has passed. *)
Lemma handler_chat_run (E : env) (event : gmap string pyval) (st : state)
    (message session_id : pyval) :
  dispatch event = Ok RouteChat →
  chat_request E event = Ok (message, session_id) →
  truthy message = true →
  let st2 := State [] (kb_calls st) (trace st ++ [ActReset; ActCreateAgent session_id]) in
  match create_study_buddy_agent E session_id with
  | Raise e => handler E event st = (Ok (internal_error e), st2)
  | Ok a =>
      snd (handler E event st)
        = snd (run_agent E (a message) (log (ActInvokeAgent message) st2))
  end.
Proof.
  intros Hd Hreq Ht st2. unfold handler, chat. rewrite Hd, Hreq, Ht. cbn [negb].
  assert (Hst : log (ActCreateAgent session_id) (log ActReset (set_sources [] st)) = st2).
  { unfold st2, log, set_sources. cbn [trace kb_calls _retrieved_sources].
    f_equal. by rewrite <- app_assoc. }
  rewrite Hst. destruct (create_study_buddy_agent E session_id) as [a|e]; [| done].
  by destruct (run_agent E (a message) _) as [[sr|e] st3].
Qed.

(** C2. When a chat invocation passes validation, the handler empties the
    shared list once, before it builds and calls the agent: the agent
    starts from the empty list, the trace of the invocation is one reset,
    then the construction, then the call and tool calls only, and the
    outcome is the same whatever list the invocation found. *)
Theorem reset_once_before_agent (E : env) (event : gmap string pyval) (st : state)
    (message session_id : pyval) :
  dispatch event = Ok RouteChat →
  chat_request E event = Ok (message, session_id) →
  truthy message = true →
  (∀ a, create_study_buddy_agent E session_id = Ok a →
     snd (handler E event st)
       = snd (run_agent E (a message)
                (State [] (kb_calls st)
                   (trace st ++ [ActReset; ActCreateAgent session_id;
                                 ActInvokeAgent message]))))
  ∧ (∃ tl, trace (snd (handler E event st))
             = trace st ++ ActReset :: ActCreateAgent session_id :: tl
           ∧ Forall (λ x, x = ActInvokeAgent message ∨ ∃ q, x = ActToolCall q) tl)
  ∧ (∀ stale, handler E event (set_sources stale st) = handler E event st).
Proof.
  intros Hd Hreq Ht.
  pose proof (handler_chat_run E event st message session_id Hd Hreq Ht) as Hrun.
  cbn zeta in Hrun. split_and!.
  - intros a Ha. rewrite Ha in Hrun. rewrite Hrun. f_equal. f_equal.
    unfold log. cbn [trace kb_calls _retrieved_sources]. f_equal.
    by rewrite <- app_assoc.
  - destruct (create_study_buddy_agent E session_id) as [a|e].
    + rewrite Hrun. destruct (run_agent_trace E (a message)
        (log (ActInvokeAgent message)
           (State [] (kb_calls st) (trace st ++ [ActReset; ActCreateAgent session_id]))))
        as (tl & -> & Htl).
      exists (ActInvokeAgent message :: tl). cbn [log trace].
      rewrite <- !app_assoc. split; [done |].
      constructor; [by left |]. eapply Forall_impl; [exact Htl |]. intros x Hx. by right.
    + rewrite Hrun. exists []. by split.
  - intros stale. unfold handler, chat. rewrite Hd, Hreq, Ht. done.
Qed.

Lemma reset_once_before_agent_witness :
  snd (handler sample_env chat_event stale_state)
    = snd (run_agent sample_env (sample_agent (VStr "What is photosynthesis?"))
             (State [] 1 [ActReset; ActCreateAgent (VStr "default-session");
                          ActInvokeAgent (VStr "What is photosynthesis?")]))
  ∧ (∃ tl, trace (snd (handler sample_env chat_event stale_state))
             = [] ++ ActReset :: ActCreateAgent (VStr "default-session") :: tl
           ∧ Forall (λ x, x = ActInvokeAgent (VStr "What is photosynthesis?")
                          ∨ ∃ q, x = ActToolCall q) tl)
  ∧ handler sample_env chat_event (set_sources [stale_passage; stale_passage] stale_state)
      = handler sample_env chat_event stale_state.
Proof.
  destruct (reset_once_before_agent sample_env chat_event stale_state
              (VStr "What is photosynthesis?") (VStr "default-session"))
    as (Hrun & Htrace & Hstale).
  - by_evaluation.
  - by_evaluation.
  - reflexivity.
  - split; [| split].
    + apply (Hrun sample_agent). reflexivity.
    + exact Htrace.
    + apply Hstale.
Defined.

(** Two invocations in one process: the first stores what it retrieved,
    the second retrieves nothing, and nothing of the first shows in its
    state or in its response. *)
Example second_invocation_is_clean :
  let first := handler sample_env chat_event initial_state in
  let second := handler quiet_env chat_event (snd first) in
  length (_retrieved_sources (snd first)) = 3
  ∧ _retrieved_sources (snd second) = []
  ∧ fst second
      = Ok (Response 200 json_headers
              (json_dumps (VDict (<["response" := VStr "Hello!"]>
                                 (<["sessionId" := VStr "default-session"]>
                                 (<["relevantMaterialId" := VNone]> ∅)))))).
Proof. cbv zeta. split_and!; by_evaluation. Qed.

(** An exception raised before the [try] block is not turned into a
    response. *)
Example handler_raises_before_try :
  fst (handler sample_env malformed_event initial_state)
  = Raise (Exn AttributeError "'NoneType' object has no attribute 'get'").
Proof. by_evaluation. Qed.

(** C5, as the code has it.  A body that is a string is decoded with
    [json.loads]; when the event has no [body] key the event itself is the
    request mapping, so [message] and [sessionId] are read from its own
    keys; and whenever the request mapping has no [sessionId] key the
    session is [default-session]. *)
Theorem chat_request_cases (E : env) (event : gmap string pyval) :
  (∀ s, event !! "body" = Some (VStr s) → parse_body E event = json_loads E s)
  ∧ (event !! "body" = None →
       parse_body E event = Ok (VDict event)
       ∧ chat_request E event
           = Ok (default (VStr "") (event !! "message"),
                 default (VStr "default-session") (event !! "sessionId")))
  ∧ (∀ b, parse_body E event = Ok (VDict b) →
       b !! "sessionId" = None →
       chat_request E event
         = Ok (default (VStr "") (b !! "message"), VStr "default-session")).
Proof.
  split_and!.
  - intros s Hs. unfold parse_body. by rewrite Hs.
  - intros Hb. assert (Hp : parse_body E event = Ok (VDict event)).
    { unfold parse_body. by rewrite Hb. }
    split; [done | by apply chat_request_ok].
  - intros b Hp Hs. rewrite (chat_request_ok _ _ _ Hp). by rewrite Hs.
Qed.

Lemma chat_request_cases_witness :
  parse_body sample_env chat_event = json_loads sample_env sample_body_text
  ∧ (parse_body sample_env direct_event = Ok (VDict direct_event)
     ∧ chat_request sample_env direct_event
         = Ok (default (VStr "") (direct_event !! "message"),
               default (VStr "default-session") (direct_event !! "sessionId")))
  ∧ chat_request sample_env chat_event
      = Ok (default (VStr "")
              ((<["message" := VStr "What is photosynthesis?"]> ∅
                  : gmap string pyval) !! "message"),
            VStr "default-session").
Proof.
  split; [| split].
  - apply (chat_request_cases sample_env chat_event). reflexivity.
  - apply (chat_request_cases sample_env direct_event). reflexivity.
  - apply (chat_request_cases sample_env chat_event).
    + by_evaluation.
    + reflexivity.
Defined.

(** C5, counterexample.  An event without [body] is not read as the
    empty mapping: its own [message] is the message, and the request
    passes validation and is answered with status 200. *)
Lemma absent_body_is_not_empty_mapping :
  direct_event !! "body" = None
  ∧ parse_body sample_env direct_event ≠ Ok (VDict ∅)
  ∧ chat_request sample_env direct_event
      = Ok (VStr "What is mitosis?", VStr "default-session")
  ∧ ∃ r, fst (handler sample_env direct_event initial_state) = Ok r
         ∧ statusCode r = 200%Z.
Proof.
  split_and!.
  - reflexivity.
  - by_evaluation.
  - by_evaluation.
  - eexists. split; [by_evaluation | reflexivity].
Qed.

(** X17. A chat request whose body is read as a mapping that has no
    [message], or the empty string as [message], is answered with status
    400 and a body with the key [error]; the state is as before, so the
    trace has no construction and no call of the agent. *)
Theorem empty_message_is_rejected (E : env) (event : gmap string pyval) (st : state)
    (b : gmap string pyval) :
  dispatch event = Ok RouteChat →
  parse_body E event = Ok (VDict b) →
  b !! "message" = None ∨ b !! "message" = Some (VStr "") →
  ∃ r d, handler E event st = (Ok r, st)
         ∧ statusCode r = 400%Z
         ∧ body r = json_dumps (VDict d)
         ∧ d !! "error" = Some (VStr "Message is required")
         ∧ trace (snd (handler E event st)) = trace st.
Proof.
  intros Hd Hp Hm.
  assert (Hh : handler E event st
               = (Ok (Response 400 json_headers (error_body "Message is required")), st)).
  { unfold handler, chat. rewrite Hd, (chat_request_ok _ _ _ Hp).
    by destruct Hm as [-> | ->]. }
  eexists _, _. rewrite Hh. split_and!; try done.
Qed.

Lemma empty_message_is_rejected_witness :
  ∃ r d, handler sample_env empty_chat_event stale_state = (Ok r, stale_state)
         ∧ statusCode r = 400%Z
         ∧ body r = json_dumps (VDict d)
         ∧ d !! "error" = Some (VStr "Message is required")
         ∧ trace (snd (handler sample_env empty_chat_event stale_state))
             = trace stale_state.
Proof.
  apply (empty_message_is_rejected sample_env empty_chat_event stale_state ∅).
  - by_evaluation.
  - by_evaluation.
  - left. reflexivity.
Defined.

(** C10. A response with status 400 leaves the state as it was: the
    shared list still holds what the invocation found. *)
Theorem status_400_keeps_sources (E : env) (event : gmap string pyval)
    (st st' : state) (r : http_response) :
  handler E event st = (Ok r, st') →
  statusCode r = 400%Z →
  st' = st ∧ _retrieved_sources st' = _retrieved_sources st.
Proof.
  intros Hh Hcode.
  assert (st' = st) as ->; [| done].
  destruct (handler_ok_inv _ _ _ _ _ Hh)
    as [(_ & -> & Hst) | [(_ & -> & Hst) | (_ & [Hc | [e ->]])]]; [| done | | done].
  - destruct (get_materials_handler_cases E event) as (code & bd & Heq & Hcases).
    rewrite Heq in Hcode. cbn in Hcode. lia.
  - destruct (chat_ok_inv _ _ _ _ _ Hc) as [[_ Hst] | (m & s & sr & _ & _ & ->)]; done.
Qed.

Lemma status_400_keeps_sources_witness :
  snd (handler sample_env empty_chat_event stale_state) = stale_state
  ∧ _retrieved_sources (snd (handler sample_env empty_chat_event stale_state))
      = _retrieved_sources stale_state.
Proof.
  apply (status_400_keeps_sources sample_env empty_chat_event stale_state
           (snd (handler sample_env empty_chat_event stale_state))
           (Response 400 json_headers (error_body "Message is required"))).
  - by_evaluation.
  - reflexivity.
Defined.

Lemma dispatch_materials (event : gmap string pyval) (path : string) :
  request_path event = VStr path →
  is_substring "/materials" path →
  request_method event = Ok (VStr "GET") →
  dispatch event = Ok RouteMaterials.
Proof.
  intros Hp Hin Hm. unfold dispatch. rewrite Hp, Hm. cbn [mbind result_bind py_in].
  apply str_in_spec in Hin. by rewrite Hin.
Qed.

(** C7. For a GET request whose path contains [/materials]: when the
    catalog file can be read and decoded, the response has status 200 and
    its body is the JSON text of the decoded catalog; when the file is
    missing the status is 404; on any other exception, from reading or
    from decoding, it is 500.  Both error bodies have the key [error]. *)
Theorem materials_endpoint (E : env) (event : gmap string pyval) (st : state)
    (path : string) :
  request_path event = VStr path →
  is_substring "/materials" path →
  request_method event = Ok (VStr "GET") →
  (∀ text catalog,
     read_materials E = Ok text → json_loads E text = Ok catalog →
     handler E event st = (Ok (Response 200 json_headers (json_dumps catalog)), st))
  ∧ (∀ msg,
       read_materials E = Raise (Exn FileNotFoundError msg) →
       ∃ d, handler E event st = (Ok (Response 404 json_headers (json_dumps (VDict d))), st)
            ∧ d !! "error" = Some (VStr "Materials file not found"))
  ∧ (∀ e,
       exn_cls e ≠ FileNotFoundError →
       read_materials E = Raise e
       ∨ (∃ text, read_materials E = Ok text ∧ json_loads E text = Raise e) →
       ∃ d, handler E event st = (Ok (Response 500 json_headers (json_dumps (VDict d))), st)
            ∧ d !! "error" = Some (VStr ("Error loading materials: " +:+ exn_str e))).
Proof.
  intros Hp Hin Hm. pose proof (dispatch_materials _ _ Hp Hin Hm) as Hd.
  unfold handler, get_materials_handler. rewrite Hd. split_and!.
  - intros text catalog -> Hj. cbn [mbind result_bind]. by rewrite Hj.
  - intros msg ->. cbn [mbind result_bind].
    eexists. split; [reflexivity | apply lookup_insert_eq].
  - intros [cls msg] Hcls Hfail. cbn [exn_cls] in Hcls.
    assert (Hraise : read_materials E ≫= json_loads E = Raise (Exn cls msg)).
    { destruct Hfail as [-> | (text & -> & Hj)]; [done | exact Hj]. }
    rewrite Hraise.
    destruct cls; try done; (eexists; split; [reflexivity | apply lookup_insert_eq]).
Qed.

Lemma materials_endpoint_witness :
  handler sample_env materials_event stale_state
    = (Ok (Response 200 json_headers (json_dumps (VDict ∅))), stale_state)
  ∧ (∃ d, handler failing_env materials_event stale_state
            = (Ok (Response 404 json_headers (json_dumps (VDict d))), stale_state)
          ∧ d !! "error" = Some (VStr "Materials file not found"))
  ∧ (∃ d, handler corrupt_env materials_event stale_state
            = (Ok (Response 500 json_headers (json_dumps (VDict d))), stale_state)
          ∧ d !! "error"
              = Some (VStr ("Error loading materials: "
                              +:+ "Expecting value: line 1 column 1 (char 0)"))).
Proof.
  assert (Hpath : request_path materials_event = VStr "/materials")
    by by_evaluation.
  assert (Hin : is_substring "/materials" "/materials") by (by exists "", "").
  assert (Hmethod : request_method materials_event = Ok (VStr "GET"))
    by by_evaluation.
  split; [| split].
  - apply (proj1 (materials_endpoint sample_env materials_event stale_state
                    "/materials" Hpath Hin Hmethod) "{}" (VDict ∅)); reflexivity.
  - apply (proj1 (proj2 (materials_endpoint failing_env materials_event stale_state
                           "/materials" Hpath Hin Hmethod))
             "[Errno 2] No such file or directory").
    reflexivity.
  - apply (proj2 (proj2 (materials_endpoint corrupt_env materials_event stale_state
                           "/materials" Hpath Hin Hmethod))
             (Exn OtherError "Expecting value: line 1 column 1 (char 0)")).
    + discriminate.
    + right. exists "<html>". split; reflexivity.
Defined.

(** The three outcomes of the endpoint on concrete deployments. *)
Example materials_present :
  handler sample_env materials_event initial_state
    = (Ok (Response 200 json_headers (json_dumps (VDict ∅))), initial_state).
Proof. by_evaluation. Qed.

Example materials_absent :
  statusCode <$> [get_materials_handler failing_env materials_event] = [404%Z].
Proof. by_evaluation. Qed.

(** C8, as the code has it.  Every response the handler returns has
    [Access-Control-Allow-Origin: *]; every response but the one to
    OPTIONS also has [Content-Type: application/json]; the response to
    OPTIONS has the allowed methods, the allowed headers and a max-age,
    and no [Content-Type]. *)
Theorem response_headers (E : env) (event : gmap string pyval) (st : state)
    (r : http_response) :
  fst (handler E event st) = Ok r →
  headers r !! "Access-Control-Allow-Origin" = Some "*"
  ∧ (dispatch event ≠ Ok RouteOptions →
       headers r !! "Content-Type" = Some "application/json")
  ∧ (dispatch event = Ok RouteOptions →
       headers r !! "Access-Control-Allow-Methods" = Some "GET, POST, OPTIONS"
       ∧ headers r !! "Access-Control-Allow-Headers" = Some "Content-Type"
       ∧ headers r !! "Access-Control-Max-Age" = Some "86400"
       ∧ headers r !! "Content-Type" = None
       ∧ body r = Literal "").
Proof.
  intros Hr. destruct (handler E event st) as [res st'] eqn:Hh.
  cbn [fst] in Hr. subst res.
  destruct (handler_ok_inv _ _ _ _ _ Hh)
    as [(Hd & -> & _) | [(Hd & -> & _) | (Hd & [Hc | [e ->]])]].
  - destruct (get_materials_handler_cases E event) as (code & bd & -> & _).
    split_and!; [done | done | congruence].
  - split_and!; [done | congruence | done].
  - destruct (chat_ok_inv _ _ _ _ _ Hc) as [[-> _] | (m & s & sr & _ & _ & ->)];
      (split_and!; [done | done | congruence]).
  - split_and!; [done | done | congruence].
Qed.

Lemma response_headers_witness :
  (headers options_response !! "Access-Control-Allow-Origin" = Some "*"
   ∧ headers options_response !! "Access-Control-Allow-Methods"
       = Some "GET, POST, OPTIONS"
   ∧ headers options_response !! "Access-Control-Allow-Headers" = Some "Content-Type"
   ∧ headers options_response !! "Access-Control-Max-Age" = Some "86400"
   ∧ headers options_response !! "Content-Type" = None
   ∧ body options_response = Literal "")
  ∧ (headers (internal_error (Exn AttributeError
                "'NoneType' object has no attribute 'get'"))
       !! "Access-Control-Allow-Origin" = Some "*"
     ∧ headers (internal_error (Exn AttributeError
                  "'NoneType' object has no attribute 'get'"))
         !! "Content-Type" = Some "application/json").
Proof.
  split.
  - destruct (response_headers sample_env options_event stale_state options_response)
      as (Horigin & _ & Hoptions); [by_evaluation |].
    split; [exact Horigin |]. apply Hoptions. by_evaluation.
  - destruct (response_headers sample_env (<["body" := VNone]> ∅) stale_state
                (internal_error (Exn AttributeError
                   "'NoneType' object has no attribute 'get'")))
      as (Horigin & Hjson & _); [by_evaluation |].
    split; [exact Horigin |]. apply Hjson. by_evaluation.
Defined.

(** C8, counterexample.  The response to an OPTIONS request has no
    [Content-Type] header. *)
Lemma options_response_has_no_content_type :
  ∃ r, fst (handler sample_env options_event initial_state) = Ok r
       ∧ headers r !! "Content-Type" ≠ Some "application/json".
Proof. exists options_response. split; [by_evaluation | done]. Qed.

(* ================================================================== *)
(** * Further properties of the router *)
(* ================================================================== *)

(** X1. A request whose method is OPTIONS gets the preflight response on
    every path, the materials path included; the state is untouched. *)
Theorem options_preflight (E : env) (event : gmap string pyval) (st : state)
    (in_path : bool) :
  request_method event = Ok (VStr "OPTIONS") →
  py_in "/materials" (request_path event) = Ok in_path →
  handler E event st = (Ok options_response, st)
  ∧ statusCode options_response = 200%Z
  ∧ body options_response = Literal "".
Proof.
  intros Hm Hp. split; [| done]. unfold handler, dispatch. rewrite Hm, Hp.
  cbn [mbind result_bind py_eq_str]. rewrite andb_false_r. done.
Qed.

Lemma options_preflight_witness :
  handler sample_env options_materials_event stale_state = (Ok options_response, stale_state)
  ∧ statusCode options_response = 200%Z
  ∧ body options_response = Literal "".
Proof.
  apply (options_preflight sample_env options_materials_event stale_state true);
    by_evaluation.
Defined.

(** X2. The fields of the HTTP API event win over those of the REST
    event: a non-empty [requestContext.http.method] is the method whatever
    [httpMethod] says, and a non-empty [rawPath] is the path whatever
    [path] says.  Without [requestContext] and [rawPath] the method is
    [httpMethod] and the path is [path], each defaulting to the empty
    string. *)
Theorem routing_fields_precedence (event : gmap string pyval) :
  (∀ rc http m,
     event !! "requestContext" = Some (VDict rc) →
     rc !! "http" = Some (VDict http) →
     http !! "method" = Some m →
     truthy m = true →
     request_method event = Ok m)
  ∧ (∀ p, event !! "rawPath" = Some p → truthy p = true → request_path event = p)
  ∧ (event !! "requestContext" = None →
       request_method event = Ok (default (VStr "") (event !! "httpMethod")))
  ∧ (event !! "rawPath" = None →
       request_path event = default (VStr "") (event !! "path")).
Proof.
  unfold request_method, request_path, py_or, dict_get. split_and!.
  - intros rc http m -> Hrc Hm Ht. cbn [default from_option id py_get dict_get].
    unfold dict_get. rewrite Hrc. cbn [mbind result_bind from_option id py_get].
    unfold dict_get. rewrite Hm. cbn [mbind result_bind from_option id].
    by rewrite Ht.
  - intros p -> Ht. cbn [from_option id]. by rewrite Ht.
  - intros ->. cbn [from_option id py_get]. unfold dict_get.
    rewrite lookup_empty. cbn [mbind result_bind from_option id py_get].
    unfold dict_get. rewrite lookup_empty. done.
  - intros ->. done.
Qed.

Lemma routing_fields_precedence_witness :
  request_method mixed_event = Ok (VStr "GET")
  ∧ request_path mixed_event = VStr "/materials"
  ∧ request_method options_event
      = Ok (default (VStr "") (options_event !! "httpMethod"))
  ∧ request_path options_event = default (VStr "") (options_event !! "path").
Proof.
  destruct (routing_fields_precedence mixed_event) as (Hm & Hp & _ & _).
  destruct (routing_fields_precedence options_event) as (_ & _ & Hm' & Hp').
  split_and!.
  - apply (Hm (<["http" := VDict (<["method" := VStr "GET"]> ∅)]> ∅)
              (<["method" := VStr "GET"]> ∅)); reflexivity.
  - apply Hp; reflexivity.
  - apply Hm'. reflexivity.
  - apply Hp'. reflexivity.
Defined.

Lemma chat_ok_status (E : env) (event : gmap string pyval) (st st' : state)
    (r : http_response) :
  chat E event st = (Ok r, st') → statusCode r = 200%Z ∨ statusCode r = 400%Z.
Proof.
  intros Hc.
  destruct (chat_ok_inv _ _ _ _ _ Hc) as [[-> _] | (m & s & sr & _ & _ & ->)]; auto.
Qed.

(** X3. The handler raises exactly when the routing lines raise, and then
    with the same exception and the state untouched.  Once the route is
    known it returns a response, with status 200, 400, 404 or 500.  An
    event without [requestContext] whose path is a string always has a
    route. *)
Theorem handler_raises_only_from_routing (E : env) (event : gmap string pyval)
    (st : state) :
  (∀ rt, dispatch event = Ok rt →
     ∃ r, fst (handler E event st) = Ok r ∧ known_status (statusCode r))
  ∧ (∀ e, dispatch event = Raise e → handler E event st = (Raise e, st))
  ∧ (∀ p, event !! "requestContext" = None → request_path event = VStr p →
       ∃ rt, dispatch event = Ok rt).
Proof.
  unfold known_status. split_and!.
  - intros rt Hd. unfold handler. rewrite Hd. destruct rt.
    + destruct (get_materials_handler_cases E event) as (code & b & -> & Hcode).
      eexists. split; [done |]. cbn [statusCode]. tauto.
    + eexists. split; [done |]. cbn. tauto.
    + destruct (chat E event st) as [[r | e] st'] eqn:Hc.
      * exists r. split; [done |]. destruct (chat_ok_status _ _ _ _ _ Hc); tauto.
      * eexists. split; [done |]. cbn. tauto.
  - intros e Hd. unfold handler. by rewrite Hd.
  - intros p Hrc Hp. unfold dispatch, request_method, dict_get.
    rewrite Hrc, Hp. cbn [from_option id py_get]. unfold dict_get.
    rewrite lookup_empty. cbn [mbind result_bind from_option id py_get].
    unfold dict_get. rewrite lookup_empty. cbn [mbind result_bind from_option id].
    by eexists.
Qed.

Lemma handler_raises_only_from_routing_witness :
  (∃ r, fst (handler sample_env null_body_event stale_state) = Ok r
        ∧ known_status (statusCode r))
  ∧ handler sample_env malformed_event stale_state
      = (Raise (Exn AttributeError "'NoneType' object has no attribute 'get'"),
         stale_state)
  ∧ ∃ rt, dispatch null_body_event = Ok rt.
Proof.
  destruct (handler_raises_only_from_routing sample_env null_body_event stale_state)
    as (Hok & _ & Hrest).
  destruct (handler_raises_only_from_routing sample_env malformed_event stale_state)
    as (_ & Hraise & _).
  split_and!.
  - apply (Hok RouteChat). by_evaluation.
  - apply Hraise. by_evaluation.
  - apply (Hrest "/chat"); by_evaluation.
Defined.

(** X4. When the request fields cannot be read, because the body is not
    JSON or is not a mapping, the chat flow answers with status 500 and
    the text of the exception; the state is untouched, so the list is not
    reset and the agent is not called. *)
Theorem unreadable_request_is_500 (E : env) (event : gmap string pyval) (st : state)
    (e : exn) :
  dispatch event = Ok RouteChat →
  chat_request E event = Raise e →
  ∃ r d, handler E event st = (Ok r, st)
         ∧ statusCode r = 500%Z
         ∧ body r = json_dumps (VDict d)
         ∧ d !! "error" = Some (VStr ("Internal server error: " +:+ exn_str e)).
Proof.
  intros Hd Hreq. unfold handler, chat. rewrite Hd, Hreq.
  eexists _, _. split_and!; [reflexivity | done | reflexivity | apply lookup_insert_eq].
Qed.

Lemma unreadable_request_is_500_witness :
  ∃ r d, handler sample_env html_body_event stale_state = (Ok r, stale_state)
         ∧ statusCode r = 500%Z
         ∧ body r = json_dumps (VDict d)
         ∧ d !! "error"
             = Some (VStr ("Internal server error: "
                             +:+ exn_str (Exn OtherError
                                   "Expecting value: line 1 column 1 (char 0)"))).
Proof.
  apply (unreadable_request_is_500 sample_env html_body_event stale_state); by_evaluation.
Defined.

(** X5. A body that is neither a string nor a mapping ([null], a number,
    a list), or a JSON text that decodes to such a value, makes [.get]
    raise: the answer is the status 500 response that names the type,
    not the status 400 of a missing message. *)
Theorem non_mapping_body_is_500 (E : env) (event : gmap string pyval) (st : state)
    (v : pyval) :
  dispatch event = Ok RouteChat →
  parse_body E event = Ok v →
  (∀ d, v ≠ VDict d) →
  handler E event st
    = (Ok (internal_error
             (Exn AttributeError
                ("'" +:+ type_name v +:+ "' object has no attribute 'get'"))), st)
  ∧ statusCode (internal_error
                  (Exn AttributeError
                     ("'" +:+ type_name v +:+ "' object has no attribute 'get'")))
      = 500%Z.
Proof.
  intros Hd Hp Hv. split; [| done].
  unfold handler, chat, chat_request. rewrite Hd, Hp.
  destruct v; try done. by destruct (Hv d).
Qed.

Lemma non_mapping_body_is_500_witness :
  handler sample_env null_body_event stale_state
    = (Ok (internal_error
             (Exn AttributeError
                ("'" +:+ type_name VNone +:+ "' object has no attribute 'get'"))),
       stale_state)
  ∧ statusCode (internal_error
                  (Exn AttributeError
                     ("'" +:+ type_name VNone +:+ "' object has no attribute 'get'")))
      = 500%Z.
Proof.
  apply (non_mapping_body_is_500 sample_env null_body_event stale_state VNone).
  - by_evaluation.
  - by_evaluation.
  - discriminate.
Defined.

(** X6. For a chat request whose fields could be read, the status is 400
    exactly when the message is falsy: missing, empty, [null], [false],
    zero, an empty list or an empty mapping. *)
Theorem status_400_iff_falsy_message (E : env) (event : gmap string pyval)
    (st : state) (message session_id : pyval) :
  dispatch event = Ok RouteChat →
  chat_request E event = Ok (message, session_id) →
  truthy message = false
  ↔ ∃ r, fst (handler E event st) = Ok r ∧ statusCode r = 400%Z.
Proof.
  intros Hd Hreq. split.
  - intros Ht. unfold handler, chat. rewrite Hd, Hreq, Ht. by eexists.
  - intros (r & Hr & Hcode). destruct (truthy message) eqn:Ht; [| done].
    unfold handler, chat in Hr. rewrite Hd, Hreq, Ht in Hr. cbn [negb] in Hr.
    destruct (create_study_buddy_agent E session_id) as [a | e].
    + destruct (run_agent E (a message) _) as [[sr | e] st'];
        cbn [fst snd] in Hr; injection Hr as <-; done.
    + cbn [fst] in Hr. injection Hr as <-. done.
Qed.

Lemma status_400_iff_falsy_message_witness :
  truthy (VInt 0) = false
  ↔ ∃ r, fst (handler sample_env zero_message_event stale_state) = Ok r
         ∧ statusCode r = 400%Z.
Proof.
  apply (status_400_iff_falsy_message sample_env zero_message_event stale_state
           (VInt 0) (VStr "s1")); by_evaluation.
Defined.

(** X7. Past validation, a failure to build the agent, or an exception
    from the agent's run, is answered with status 500 and the text of the
    exception.  The list has been reset by then: after a failed
    construction it is empty, and after a failed run the state is the
    one the run left. *)
Theorem agent_failure_is_500 (E : env) (event : gmap string pyval) (st : state)
    (message session_id : pyval) :
  dispatch event = Ok RouteChat →
  chat_request E event = Ok (message, session_id) →
  truthy message = true →
  (∀ e, create_study_buddy_agent E session_id = Raise e →
     handler E event st
       = (Ok (internal_error e),
          State [] (kb_calls st) (trace st ++ [ActReset; ActCreateAgent session_id])))
  ∧ (∀ a e st',
       create_study_buddy_agent E session_id = Ok a →
       run_agent E (a message)
         (State [] (kb_calls st)
            (trace st ++ [ActReset; ActCreateAgent session_id; ActInvokeAgent message]))
         = (Raise e, st') →
       handler E event st = (Ok (internal_error e), st'))
  ∧ (∀ e, statusCode (internal_error e) = 500%Z
          ∧ body (internal_error e)
              = error_body ("Internal server error: " +:+ exn_str e)).
Proof.
  intros Hd Hreq Ht. split_and!; [| | done].
  - intros e He.
    pose proof (handler_chat_run E event st message session_id Hd Hreq Ht) as Hrun.
    cbn zeta in Hrun. by rewrite He in Hrun.
  - intros a e st' Ha Hrun. unfold handler, chat. rewrite Hd, Hreq, Ht, Ha.
    cbn [negb].
    replace (log (ActInvokeAgent message)
               (log (ActCreateAgent session_id) (log ActReset (set_sources [] st))))
      with (State [] (kb_calls st)
              (trace st ++ [ActReset; ActCreateAgent session_id; ActInvokeAgent message])).
    + by rewrite Hrun.
    + unfold log, set_sources. cbn [trace kb_calls _retrieved_sources].
      f_equal. by rewrite <- !app_assoc.
Qed.

Lemma agent_failure_is_500_witness :
  handler agent_down_env chat_event stale_state
    = (Ok (internal_error (Exn OtherError "NoCredentialsError")),
       State [] 1 ([] ++ [ActReset; ActCreateAgent (VStr "default-session")]))
  ∧ handler model_down_env chat_event stale_state
      = (Ok (internal_error (Exn OtherError "ModelTimeoutException")),
         snd (handler model_down_env chat_event stale_state)).
Proof.
  destruct (agent_failure_is_500 agent_down_env chat_event stale_state
              (VStr "What is photosynthesis?") (VStr "default-session"))
    as (Hbuild & _ & _); [by_evaluation | by_evaluation | reflexivity |].
  destruct (agent_failure_is_500 model_down_env chat_event stale_state
              (VStr "What is photosynthesis?") (VStr "default-session"))
    as (_ & Hrun & _); [by_evaluation | by_evaluation | reflexivity |].
  split.
  - apply Hbuild. reflexivity.
  - apply (Hrun (λ _, AgentCallTool "mitosis"
                        (λ _, AgentRaise (Exn OtherError "ModelTimeoutException")))).
    + reflexivity.
    + by_evaluation.
Defined.

(* ================================================================== *)
(** * Further properties of the retrieval tool *)
(* ================================================================== *)

(** X8. With the knowledge base configured, a tool call replaces the
    shared list: its text and the state it leaves do not depend on what
    the list held before, so of several calls in one run only the last
    one shows. *)
Theorem tool_call_replaces_sources (E : env) (query : string) (st : state)
    (earlier : list passage) :
  KNOWLEDGE_BASE_ID E ≠ "" →
  retrieve_study_materials E query (set_sources earlier st)
    = retrieve_study_materials E query st.
Proof.
  intros Hkb. unfold retrieve_study_materials. rewrite bool_decide_false by done.
  cbn [set_sources kb_calls].
  by destruct (_ ≫= retrieve_try) as [[sources out] | e].
Qed.

Lemma tool_call_replaces_sources_witness :
  retrieve_study_materials sample_env "light" (set_sources [stale_passage] initial_state)
    = retrieve_study_materials sample_env "light" initial_state.
Proof.
  apply (tool_call_replaces_sources sample_env "light" initial_state [stale_passage]).
  by_evaluation.
Defined.

(** One round of the loop, with the entry it stores and the section it
    writes. *)
Lemma retrieve_loop_cons (idx : nat) (r : retrieval_result)
    (rest : list retrieval_result) (sources : list passage)
    (formatted : list string) (d : string) :
  document_name_of (default "Unknown source" (result_uri r)) = Ok d →
  let p := Passage (default "" (result_text r)) (default 0%Q (rr_score r))
             (default "Unknown source" (result_uri r)) d in
  retrieve_loop idx (r :: rest) sources formatted
    = retrieve_loop (S idx) rest (sources ++ [p]) (formatted ++ [format_section idx p]).
Proof.
  intros Hd p. subst p.
  destruct r as [[[[t|]]|] s [[[[u]|]]|]];
    cbn [retrieve_loop result_text result_uri from_option id rr_text rr_uri
         rr_content_ rr_score rr_location_ rr_s3Location] in *;
    rewrite Hd; reflexivity.
Qed.

(** The loop stores one entry per result and writes one section per
    entry, numbered from [idx]. *)
Lemma retrieve_loop_sections (results : list retrieval_result) :
  ∀ idx sources formatted,
    ∃ ps, retrieve_loop idx results sources formatted
            = Ok (sources ++ ps,
                  formatted ++ imap (λ i p, format_section (idx + i) p) ps)
          ∧ length ps = length results.
Proof.
  induction results as [|r rest IH]; intros idx sources formatted.
  - exists []. by rewrite !app_nil_r.
  - destruct (document_name_of_spec (default "Unknown source" (result_uri r)))
      as (d & Hd & _).
    rewrite (retrieve_loop_cons _ _ _ _ _ _ Hd). cbv zeta.
    set (p := Passage _ _ _ d).
    destruct (IH (S idx) (sources ++ [p]) (formatted ++ [format_section idx p]))
      as (ps & -> & Hlen).
    exists (p :: ps). split; [| simpl; by rewrite Hlen].
    rewrite <- !app_assoc. cbn [imap app]. rewrite Nat.add_0_r.
    assert (Himap : imap ((λ i q, format_section (idx + i) q) ∘ S) ps
                    = imap (λ i q, format_section (S idx + i) q) ps).
    { apply imap_ext. intros i q _. cbn [compose Nat.add]. by rewrite Nat.add_succ_r. }
    by rewrite Himap.
Qed.

(** X10. After a search with at least one result, the text the tool
    returns is made of the stored entries: one section per entry, in the
    order of the list, numbered from 1, joined by the divider line. *)
Theorem tool_text_lists_stored_passages (E : env) (query : string) (st : state)
    (resp : retrieve_response) (results : list retrieval_result) :
  KNOWLEDGE_BASE_ID E ≠ "" →
  bedrock_retrieve E (kb_calls st) (KNOWLEDGE_BASE_ID E) query = Ok resp →
  retrievalResults resp = Some results →
  results ≠ [] →
  fst (retrieve_study_materials E query st)
    = join (nl +:+ "---" +:+ nl)
        (imap (λ i p, format_section (S i) p)
           (_retrieved_sources (snd (retrieve_study_materials E query st)))).
Proof.
  intros Hkb Hcall Hres Hne. unfold retrieve_study_materials.
  rewrite bool_decide_false by done. rewrite Hcall.
  cbn [mbind result_bind]. unfold retrieve_try. rewrite Hres. cbn [from_option id].
  destruct results as [|r rest]; [done |].
  destruct (retrieve_loop_sections (r :: rest) 1 [] []) as (ps & -> & _).
  cbn [fst snd _retrieved_sources set_sources mbind result_bind app]. done.
Qed.

Lemma tool_text_lists_stored_passages_witness :
  fst (retrieve_study_materials sample_env "light" stale_state)
    = join (nl +:+ "---" +:+ nl)
        (imap (λ i p, format_section (S i) p)
           (_retrieved_sources (snd (retrieve_study_materials sample_env "light"
                                       stale_state)))).
Proof.
  apply (tool_text_lists_stored_passages sample_env "light" stale_state
           (RetrieveResponse (Some sample_results)) sample_results).
  - by_evaluation.
  - reflexivity.
  - reflexivity.
  - discriminate.
Defined.

Lemma str_app_assoc (a b c : string) : (a +:+ b) +:+ c = a +:+ (b +:+ c).
Proof.
  induction a as [|x a IH]; [done |].
  change (String x ((a +:+ b) +:+ c) = String x (a +:+ (b +:+ c))). by rewrite IH.
Qed.

Lemma lower_app (a b : string) : lower (a +:+ b) = lower a +:+ lower b.
Proof.
  induction a as [|x a IH]; [done |].
  change (String (lower_ascii x) (lower (a +:+ b))
          = String (lower_ascii x) (lower a +:+ lower b)). by rewrite IH.
Qed.

Lemma is_passage_of_well_named (r : retrieval_result) (p : passage) :
  is_passage_of r p → well_named p.
Proof.
  intros (_ & _ & _ & Hno & Hyes). unfold well_named.
  destruct (decide (is_substring "/" (p_source p))) as [Hin | Hin].
  - destruct (Hyes Hin) as (Hd & pre & Hsrc). split; [done |].
    exists (pre +:+ "/"). by rewrite str_app_assoc.
  - rewrite (Hno Hin). split; [done | by exists ""].
Qed.

(** What a tool call does to the state. *)
Lemma tool_state_cases (E : env) (query : string) (st : state) :
  let st' := snd (retrieve_study_materials E query st) in
  (KNOWLEDGE_BASE_ID E = "" ∧ st' = st)
  ∨ (KNOWLEDGE_BASE_ID E ≠ ""
     ∧ kb_calls st' = S (kb_calls st)
     ∧ trace st' = trace st
     ∧ Forall well_named (_retrieved_sources st')).
Proof.
  unfold retrieve_study_materials. case_bool_decide as Hkb; [by left | right].
  split; [done |].
  destruct (bedrock_retrieve E (kb_calls st) (KNOWLEDGE_BASE_ID E) query) as [resp | e];
    cbn [mbind result_bind]; [| by split_and!].
  unfold retrieve_try. destruct (default [] (retrievalResults resp)) as [|r rest];
    [by split_and! |].
  destruct (retrieve_loop_spec (r :: rest) 1 [] []) as (ps & fs & -> & Hps & _).
  cbn [mbind result_bind snd fst set_sources count_call _retrieved_sources
       kb_calls trace app]. split_and!; [done | done |].
  clear -Hps. induction Hps as [| r' p rs ps' Hp _ IH]; constructor; [| done].
  by eapply is_passage_of_well_named.
Qed.

(** The state a call of [handler] leaves: the one it found, or the state
    after the reset and a failed construction, or the one the agent's
    run left. *)
Lemma handler_state (E : env) (event : gmap string pyval) (st : state) :
  snd (handler E event st) = st
  ∨ (∃ session_id,
        snd (handler E event st)
          = State [] (kb_calls st) (trace st ++ [ActReset; ActCreateAgent session_id]))
  ∨ (∃ a message session_id,
        snd (handler E event st)
          = snd (run_agent E (a message)
                   (State [] (kb_calls st)
                      (trace st ++ [ActReset; ActCreateAgent session_id;
                                    ActInvokeAgent message])))).
Proof.
  destruct (dispatch event) as [[] | e] eqn:Hd;
    try (left; unfold handler; by rewrite Hd).
  destruct (chat_request E event) as [[message session_id] | e] eqn:Hreq;
    [| left; unfold handler, chat; by rewrite Hd, Hreq].
  destruct (truthy message) eqn:Ht;
    [| left; unfold handler, chat; by rewrite Hd, Hreq, Ht].
  pose proof (handler_chat_run E event st message session_id Hd Hreq Ht) as Hrun.
  cbn zeta in Hrun. right.
  destruct (create_study_buddy_agent E session_id) as [a | e].
  - right. exists a, message, session_id. rewrite Hrun. f_equal. f_equal.
    unfold log. cbn [trace kb_calls _retrieved_sources]. f_equal.
    by rewrite <- app_assoc.
  - left. exists session_id. by rewrite Hrun.
Qed.

Lemma run_agent_well_named (E : env) (a : agent_run) :
  ∀ st, Forall well_named (_retrieved_sources st) →
        Forall well_named (_retrieved_sources (snd (run_agent E a st))).
Proof.
  induction a as [r | e | query k IH]; intros st Hst; [done | done |].
  cbn [run_agent]. apply IH.
  destruct (tool_state_cases E query (log (ActToolCall query) st))
    as [[_ ->] | (_ & _ & _ & H)]; done.
Qed.

(** X11. The handler keeps the shared list well named: if every entry's
    document name is free of [/] and ends the entry's source before a
    call, the same holds after it, on every route and whatever the agent
    and the search do. *)
Theorem handler_keeps_sources_well_named (E : env) (event : gmap string pyval)
    (st : state) :
  Forall well_named (_retrieved_sources st) →
  Forall well_named (_retrieved_sources (snd (handler E event st))).
Proof.
  intros Hst.
  destruct (handler_state E event st) as [-> | [(sid & ->) | (a & m & sid & ->)]];
    [done | done |].
  by apply run_agent_well_named.
Qed.

Lemma handler_keeps_sources_well_named_witness :
  Forall well_named
    (_retrieved_sources (snd (handler sample_env chat_event stale_state))).
Proof.
  apply (handler_keeps_sources_well_named sample_env chat_event stale_state).
  constructor; [| constructor]. split.
  - apply str_in_false_spec. reflexivity.
  - exists "s3://study/biology/". reflexivity.
Defined.

(** X12. A successful chat response echoes the session identifier of the
    request under [sessionId], carries under [response] the text of the
    structured output that the agent's run returned, and has no key
    besides [response], [sessionId], [relevantMaterialId] and [sources]. *)
Theorem success_response_fields (E : env) (event : gmap string pyval) (st : state)
    (r : http_response) :
  dispatch event = Ok RouteChat →
  fst (handler E event st) = Ok r →
  statusCode r = 200%Z →
  ∃ message session_id a sr d,
    chat_request E event = Ok (message, session_id)
    ∧ create_study_buddy_agent E session_id = Ok a
    ∧ fst (run_agent E (a message)
             (State [] (kb_calls st)
                (trace st ++ [ActReset; ActCreateAgent session_id;
                              ActInvokeAgent message]))) = Ok sr
    ∧ body r = json_dumps (VDict d)
    ∧ d !! "sessionId" = Some session_id
    ∧ d !! "response" = Some (VStr (response sr))
    ∧ ∀ k, is_Some (d !! k) →
           k = "response" ∨ k = "sessionId" ∨ k = "relevantMaterialId" ∨ k = "sources".
Proof.
  intros Hd Hr Hcode.
  destruct (handler_chat_200_inv _ _ _ _ Hd Hr Hcode)
    as (message & session_id & _ & Hreq & Ht & _).
  unfold handler, chat in Hr. rewrite Hd, Hreq, Ht in Hr. cbn [negb] in Hr.
  replace (log (ActInvokeAgent message)
             (log (ActCreateAgent session_id) (log ActReset (set_sources [] st))))
    with (State [] (kb_calls st)
            (trace st ++ [ActReset; ActCreateAgent session_id; ActInvokeAgent message]))
    in Hr.
  2: { unfold log, set_sources. cbn [trace kb_calls _retrieved_sources].
       f_equal. by rewrite <- !app_assoc. }
  destruct (create_study_buddy_agent E session_id) as [a | e] eqn:Ha;
    [| cbn [fst] in Hr; injection Hr as <-; done].
  destruct (run_agent E (a message) _) as [[sr | e] st'] eqn:Hrun;
    cbn [fst snd] in Hr; injection Hr as <-; [| done].
  eexists message, session_id, a, sr, _.
  split_and!;
    [done | done | by rewrite Hrun | reflexivity | apply response_data_session | |].
  - unfold response_data. by destruct (filter_sources _); simplify_map_eq.
  - intros k Hk. apply elem_of_dom in Hk. unfold response_data in Hk.
    destruct (filter_sources _);
      rewrite !dom_insert_L, dom_empty_L in Hk;
      rewrite !elem_of_union, !elem_of_singleton, elem_of_empty in Hk; tauto.
Qed.

Lemma success_response_fields_witness :
  ∃ message session_id a sr d,
    chat_request quiet_env chat_event = Ok (message, session_id)
    ∧ create_study_buddy_agent quiet_env session_id = Ok a
    ∧ fst (run_agent quiet_env (a message)
             (State [] (kb_calls stale_state)
                (trace stale_state ++ [ActReset; ActCreateAgent session_id;
                                       ActInvokeAgent message]))) = Ok sr
    ∧ body (Response 200 json_headers
              (json_dumps (VDict (response_data (MkStudyBuddyResponse "Hello!" None)
                                    (VStr "default-session") []))))
        = json_dumps (VDict d)
    ∧ d !! "sessionId" = Some session_id
    ∧ d !! "response" = Some (VStr (response sr))
    ∧ ∀ k, is_Some (d !! k) →
           k = "response" ∨ k = "sessionId" ∨ k = "relevantMaterialId" ∨ k = "sources".
Proof.
  apply (success_response_fields quiet_env chat_event stale_state).
  - by_evaluation.
  - by_evaluation.
  - reflexivity.
Defined.

(** In the sample run the text under [response] is the agent's. *)
Example success_response_text :
  ∃ d, fst (handler quiet_env chat_event stale_state)
         = Ok (Response 200 json_headers (json_dumps (VDict d)))
       ∧ d !! "response" = Some (VStr "Hello!").
Proof. eexists. split; [by_evaluation | reflexivity]. Qed.

Lemma run_agent_unconfigured (E : env) (a : agent_run) :
  KNOWLEDGE_BASE_ID E = "" →
  ∀ st, _retrieved_sources (snd (run_agent E a st)) = _retrieved_sources st
        ∧ kb_calls (snd (run_agent E a st)) = kb_calls st.
Proof.
  intros Hkb. induction a as [r | e | query k IH]; intros st; [done | done |].
  cbn [run_agent].
  destruct (tool_state_cases E query (log (ActToolCall query) st))
    as [[_ Heq] | (Hne & _)]; [| done].
  destruct (IH (fst (retrieve_study_materials E query (log (ActToolCall query) st)))
               (snd (retrieve_study_materials E query (log (ActToolCall query) st))))
    as [-> ->].
  by rewrite Heq.
Qed.

(** X13. With [KNOWLEDGE_BASE_ID] unset the handler never calls the
    search service, whatever the agent does, and no successful chat
    response has a [sources] key. *)
Theorem unconfigured_never_searches (E : env) (event : gmap string pyval)
    (st : state) :
  KNOWLEDGE_BASE_ID E = "" →
  kb_calls (snd (handler E event st)) = kb_calls st
  ∧ (∀ r, dispatch event = Ok RouteChat →
          fst (handler E event st) = Ok r →
          statusCode r = 200%Z →
          ∃ d, body r = json_dumps (VDict d) ∧ d !! "sources" = None).
Proof.
  intros Hkb. split.
  - destruct (handler_state E event st) as [-> | [(sid & ->) | (a & m & sid & ->)]];
      [done | done |].
    by rewrite (proj2 (run_agent_unconfigured E (a m) Hkb _)).
  - intros r Hd Hr Hcode.
    destruct (handler_chat_200_inv _ _ _ _ Hd Hr Hcode)
      as (message & session_id & sr & Hreq & Ht & Heq).
    pose proof (handler_chat_run E event st message session_id Hd Hreq Ht) as Hrun.
    cbn zeta in Hrun.
    destruct (create_study_buddy_agent E session_id) as [a | e].
    + rewrite Hrun, (proj1 (run_agent_unconfigured E (a message) Hkb _)) in Heq.
      subst r. eexists. split; [reflexivity |]. by rewrite response_data_sources.
    + rewrite Hrun in Hr. cbn [fst] in Hr. injection Hr as <-. done.
Qed.

Lemma unconfigured_never_searches_witness :
  kb_calls (snd (handler unconfigured_env chat_event stale_state)) = kb_calls stale_state
  ∧ ∃ d, body (Response 200 json_headers
                 (json_dumps (VDict (response_data
                    (MkStudyBuddyResponse "Plants turn light into sugar."
                       (Some "photosynthesis"))
                    (VStr "default-session") []))))
           = json_dumps (VDict d)
         ∧ d !! "sources" = None.
Proof.
  destruct (unconfigured_never_searches unconfigured_env chat_event stale_state)
    as (Hcalls & Hresp); [reflexivity |].
  split; [exact Hcalls |]. apply Hresp.
  - by_evaluation.
  - by_evaluation.
  - reflexivity.
Defined.

Lemma run_agent_calls (E : env) (a : agent_run) :
  KNOWLEDGE_BASE_ID E ≠ "" →
  ∀ st, ∃ tl, trace (snd (run_agent E a st)) = trace st ++ tl
              ∧ kb_calls (snd (run_agent E a st)) = kb_calls st + length tl
              ∧ Forall (λ x, is_tool_call x = true) tl.
Proof.
  intros Hkb. induction a as [r | e | query k IH]; intros st.
  - exists []. by rewrite app_nil_r, Nat.add_0_r.
  - exists []. by rewrite app_nil_r, Nat.add_0_r.
  - cbn [run_agent].
    destruct (tool_state_cases E query (log (ActToolCall query) st))
      as [[Heq _] | (_ & Hcalls & Htrace & _)]; [done |].
    destruct (IH (fst (retrieve_study_materials E query (log (ActToolCall query) st)))
                 (snd (retrieve_study_materials E query (log (ActToolCall query) st))))
      as (tl & -> & -> & Htl).
    rewrite Hcalls, Htrace. cbn [log trace kb_calls].
    exists (ActToolCall query :: tl). rewrite <- app_assoc.
    split_and!; [done | simpl; lia | by constructor].
Qed.

(** X14. With the knowledge base configured, every call of the handler
    makes exactly one search request per tool call of the agent, and none
    otherwise. *)
Theorem one_search_per_tool_call (E : env) (event : gmap string pyval) (st : state) :
  KNOWLEDGE_BASE_ID E ≠ "" →
  ∃ tl, trace (snd (handler E event st)) = trace st ++ tl
        ∧ kb_calls (snd (handler E event st))
            = kb_calls st + length (filter (λ x, is_tool_call x = true) tl).
Proof.
  intros Hkb.
  destruct (handler_state E event st) as [-> | [(sid & ->) | (a & m & sid & ->)]].
  - exists []. by rewrite app_nil_r, Nat.add_0_r.
  - eexists. split; [reflexivity |]. cbn [kb_calls].
    rewrite !filter_cons_False by done. rewrite filter_nil. simpl. lia.
  - destruct (run_agent_calls E (a m) Hkb
                (State [] (kb_calls st)
                   (trace st ++ [ActReset; ActCreateAgent sid; ActInvokeAgent m])))
      as (tl & -> & -> & Htl).
    cbn [trace kb_calls]. rewrite <- app_assoc. eexists. split; [reflexivity |].
    cbn [app]. rewrite !filter_cons_False by done.
    f_equal. f_equal. symmetry. clear -Htl.
    induction Htl as [| x l Hx _ IH]; [done |].
    rewrite filter_cons_True by done. by rewrite IH.
Qed.

Lemma one_search_per_tool_call_witness :
  ∃ tl, trace (snd (handler two_lookups_env chat_event stale_state))
          = trace stale_state ++ tl
        ∧ kb_calls (snd (handler two_lookups_env chat_event stale_state))
            = kb_calls stale_state + length (filter (λ x, is_tool_call x = true) tl).
Proof.
  apply (one_search_per_tool_call two_lookups_env chat_event stale_state).
  by_evaluation.
Defined.

(** Two look-ups in one run: two search requests, and only the second
    one, which found nothing, shows in the list. *)
Example two_lookups_last_wins :
  kb_calls (snd (handler two_lookups_env chat_event initial_state)) = 2
  ∧ _retrieved_sources (snd (handler two_lookups_env chat_event initial_state)) = [].
Proof. split; by_evaluation. Qed.

(** X15. A search that raises does not abort the chat: when the agent
    answers after it was given the error text, the response has status
    200, carries the agent's text and has no [sources] key. *)
Theorem retrieval_failure_does_not_abort_chat (E : env) (event : gmap string pyval)
    (st : state) (message session_id : pyval) (a : agent) (query : string)
    (k : string → agent_run) (e : exn) (sr : StudyBuddyResponse) :
  dispatch event = Ok RouteChat →
  chat_request E event = Ok (message, session_id) →
  truthy message = true →
  create_study_buddy_agent E session_id = Ok a →
  a message = AgentCallTool query k →
  KNOWLEDGE_BASE_ID E ≠ "" →
  bedrock_retrieve E (kb_calls st) (KNOWLEDGE_BASE_ID E) query = Raise e →
  k ("Error retrieving from knowledge base: " +:+ exn_str e) = AgentReturn sr →
  ∃ r d, fst (handler E event st) = Ok r
         ∧ statusCode r = 200%Z
         ∧ body r = json_dumps (VDict d)
         ∧ d !! "response" = Some (VStr (response sr))
         ∧ d !! "sources" = None.
Proof.
  intros Hd Hreq Ht Ha Hrun Hkb Hcall Hk.
  unfold handler, chat. rewrite Hd, Hreq, Ht, Ha, Hrun. cbn [negb run_agent].
  unfold retrieve_study_materials. rewrite bool_decide_false by done.
  cbn [log set_sources kb_calls]. rewrite Hcall. cbn [mbind result_bind fst snd].
  rewrite Hk. cbn [run_agent fst snd set_sources _retrieved_sources].
  eexists _, _. split_and!; [reflexivity | done | reflexivity | |].
  - unfold response_data, filter_sources. cbn [filter list_filter]. by simplify_map_eq.
  - by rewrite response_data_sources.
Qed.

Lemma retrieval_failure_does_not_abort_chat_witness :
  ∃ r d, fst (handler failing_env chat_event stale_state) = Ok r
         ∧ statusCode r = 200%Z
         ∧ body r = json_dumps (VDict d)
         ∧ d !! "response"
             = Some (VStr (response (MkStudyBuddyResponse "Plants turn light into sugar."
                                       (Some "photosynthesis"))))
         ∧ d !! "sources" = None.
Proof.
  apply (retrieval_failure_does_not_abort_chat failing_env chat_event stale_state
           (VStr "What is photosynthesis?") (VStr "default-session") sample_agent
           "photosynthesis"
           (λ _, AgentReturn (MkStudyBuddyResponse "Plants turn light into sugar."
                                (Some "photosynthesis")))
           (Exn OtherError "ThrottlingException")).
  - by_evaluation.
  - by_evaluation.
  - reflexivity.
  - reflexivity.
  - reflexivity.
  - by_evaluation.
  - reflexivity.
  - reflexivity.
Defined.

(** X16. The filter does not depend on letter case: an entry whose
    document name contains a block that lower-cases to [materials.json]
    is never among the filtered sources. *)
Theorem catalog_name_is_dropped_in_any_case (sources : list passage) (p : passage)
    (pre block post : string) :
  p_documentName p = pre +:+ block +:+ post →
  lower block = "materials.json" →
  p ∉ filter_sources sources.
Proof.
  intros Hname Hblock Hin. unfold filter_sources in Hin.
  apply list_elem_of_filter in Hin as [Hp _].
  apply str_in_false_spec in Hp. apply Hp.
  exists (lower pre), (lower post). by rewrite Hname, !lower_app, Hblock.
Qed.

Lemma catalog_name_is_dropped_in_any_case_witness :
  Passage "Topics of the course." (1 # 4)%Q "s3://study/Materials.JSON" "Materials.JSON"
    ∉ filter_sources
        (_retrieved_sources (snd (retrieve_study_materials sample_env "light"
                                    initial_state))).
Proof.
  apply (catalog_name_is_dropped_in_any_case _ _ "" "Materials.JSON" ""); reflexivity.
Defined.

(* ================================================================== *)
(** * The tool on the states of a process *)
(* ================================================================== *)






(** The state the second and third sample calls start from holds the
    three passages of the sample search. *)
Example sample_state_is_full :
  length (_retrieved_sources (snd (handler sample_env chat_event initial_state))) = 3.
Proof. by_evaluation. Qed.

(* ================================================================== *)
(** * A request whose body is null *)
(* ================================================================== *)

(** C6, at a REST request without a body, which API Gateway delivers as
    [body: null].  The request is a chat request and has no message, and
    the handler answers it with status 500 and the text of the
    [AttributeError], not with the status 400 of the validation branch:
    the request mapping is [None], and [body.get] raises before the
    test on the message is reached. *)
Theorem null_body_request_is_answered_500 (E : env) (st : state) :
  dispatch null_body_event = Ok RouteChat
  ∧ parse_body E null_body_event = Ok VNone
  ∧ ∃ r d, handler E null_body_event st = (Ok r, st)
           ∧ statusCode r = 500%Z
           ∧ body r = json_dumps (VDict d)
           ∧ d !! "error"
               = Some (VStr "Internal server error: 'NoneType' object has no attribute 'get'").
Proof.
  split_and!; [by_evaluation | reflexivity |].
  eexists _, _. split_and!; [reflexivity | reflexivity | reflexivity | reflexivity].
Qed.
